(** * fetch_test_data: deduplication, decimation and naming of test datasets

    A shallow embedding of [scripts/fetch_test_data.py].  The three
    functions that carry the logic of the script are modelled:

    - [deduplicate_datasets] over a table whose rows live in a store, so
      that views, copies and in-place assignments are visible;
    - [decimate_dataset] over a dataset reduced to its dimensions and their
      coordinate labels;
    - [create_out_filename] over the metadata of one row and a dataset,
      with [os.path.join] and [pathlib.Path] on character strings.

    The loop of the script that calls them is modelled after them, over a
    file system given from outside. *)

From Stdlib Require Import ZArith Ascii String DecimalString.
From stdpp Require Import base tactics option list sorting gmap strings.

Local Open Scope nat_scope.

(** ** Exceptions and results *)

(** The Python exceptions the modelled code can raise. *)
Inductive exn : Type :=
  | AssertionError
  | ValueError (msg : string)
  | KeyError (label : string)
  | AttributeError (name : string)
  | TypeError
  | IndexError.

Inductive outcome (A : Type) : Type :=
  | Ok (a : A)
  | Raise (e : exn).
Arguments Ok {A} a.
Arguments Raise {A} e.

#[global] Instance outcome_ret : MRet outcome := λ A a, Ok a.
#[global] Instance outcome_bind : MBind outcome := λ A B f m,
  match m with
  | Ok a => f a
  | Raise e => Raise e
  end.

(** ** Dataset records *)

(** One row of the dataset-record table ([pd.Series]): the catalog key, the
    facet columns by name, the resolved file paths and the time span
    stamped by [fetch_datasets].  The span columns hold the strings of the
    requested span. *)
Record Series : Type := mkSeries {
  key : string;
  attrs : gmap string string;
  files : list string;
  time_start : string;
  time_end : string;
}.

Definition with_key (k : string) (s : Series) : Series :=
  mkSeries k (attrs s) (files s) (time_start s) (time_end s).
Definition with_time_start (v : string) (s : Series) : Series :=
  mkSeries (key s) (attrs s) (files s) v (time_end s).
Definition with_time_end (v : string) (s : Series) : Series :=
  mkSeries (key s) (attrs s) (files s) (time_start s) v.

(** ** The object store *)

(** Rows are objects: a table holds references to them, [iloc] hands out a
    reference (a view), [copy] allocates a new object and an attribute
    assignment writes through the reference. *)
Abbreviation loc := nat (only parsing).
Abbreviation heap := (list Series).
Abbreviation DataFrame := (list loc).

Definition M (A : Type) : Type := heap → outcome (A * heap).

#[global] Instance M_ret : MRet M := λ A a h, Ok (a, h).
#[global] Instance M_bind : MBind M := λ A B f m h,
  match m h with
  | Ok (a, h') => f a h'
  | Raise e => Raise e
  end.

Definition raise {A} (e : exn) : M A := λ _, Raise e.

Definition load (l : loc) : M Series := λ h,
  match h !! l with
  | Some s => Ok (s, h)
  | None => Raise IndexError
  end.

Definition store (l : loc) (f : Series → Series) : M unit := λ h,
  match h !! l with
  | Some s => Ok ((), <[l := f s]> h)
  | None => Raise IndexError
  end.

Definition alloc (s : Series) : M loc := λ h, Ok (length h, h ++ [s]).

(** [df.iloc[n]]: the row at position [n], by reference. *)
Definition iloc (df : DataFrame) (n : nat) : M loc :=
  match df !! n with
  | Some l => mret l
  | None => raise IndexError
  end.

(** [series.copy()] *)
Definition copy (l : loc) : M loc := s ← load l; alloc s.

(** [df.<column>]: the values of one column, in row order. *)
Definition column (f : Series → string) (df : DataFrame) : M (list string) :=
  mapM (λ l, s ← load l; mret (f s)) df.

(** ** Minimum and maximum of a column of strings *)

(** Strings compare as in Python, character by character. *)
Definition str_min (a b : string) : string := if String.leb a b then a else b.
Definition str_max (a b : string) : string := if String.leb a b then b else a.

(** [Series.min()] and [Series.max()].  On an empty column pandas answers
    NaN; no group is empty, and [_deduplicate_group] fails on [iloc[0]]
    before it could ask. *)
Definition Series_min (col : list string) : M string :=
  match col with
  | [] => raise (ValueError "min of an empty column")
  | x :: xs => mret (foldl str_min x xs)
  end.
Definition Series_max (col : list string) : M string :=
  match col with
  | [] => raise (ValueError "max of an empty column")
  | x :: xs => mret (foldl str_max x xs)
  end.

(** ** deduplicate_datasets *)

(** The inner function: the first row of the group, copied, with the time
    span widened to the whole group. *)
Definition _deduplicate_group (group : DataFrame) : M loc :=
  first ← (iloc group 0 ≫= copy);
  starts ← column time_start group;
  lo ← Series_min starts;
  store first (with_time_start lo);;
  ends ← column time_end group;
  hi ← Series_max ends;
  store first (with_time_end hi);;
  mret first.

(** [datasets.groupby("key")]: one group per distinct key, the groups in
    ascending key order, the rows of a group in table order.  A group
    shares its rows with the table. *)
Definition groupby_key (datasets : DataFrame) : M (list (string * DataFrame)) :=
  keys ← column key datasets;
  let labels := merge_sort String.le (remove_dups keys) in
  mret ((λ k, (k, (filter (λ p, p.2 = k) (zip datasets keys)).*1)) <$> labels).

(** [.apply(f, include_groups=False).reset_index()]: the function runs on
    every group, and the rows it returns are gathered in a new table, the
    group label back in the key column. *)
Definition apply_reset_index (f : DataFrame → M loc)
    (groups : list (string * DataFrame)) : M DataFrame :=
  mapM (λ kg, r ← f kg.2; s ← load r; alloc (with_key kg.1 s)) groups.

Definition deduplicate_datasets (datasets : DataFrame) : M DataFrame :=
  groupby_key datasets ≫= apply_reset_index _deduplicate_group.

(** Reading a table out of the store. *)
Definition read_table (h : heap) (df : DataFrame) : option (list Series) :=
  mapM (λ l : loc, h !! l) df.

(** What [_deduplicate_group] makes of the rows of one group. *)
Definition widen (rows : list Series) : option Series :=
  match rows with
  | [] => None
  | first :: rest =>
      Some (with_time_end (foldl str_max (time_end first) (time_end <$> rest))
             (with_time_start
                (foldl str_min (time_start first) (time_start <$> rest)) first))
  end.

(** [s] stands for the rows [rows] of the table that carry the key [k]. *)
Definition represents (rows : list Series) (k : string) (s : Series) : Prop :=
  ∃ s', widen (filter (λ r, key r = k) rows) = Some s' ∧ s = with_key k s'.

(** The least and the greatest string of a column. *)
Definition is_least (m : string) (col : list string) : Prop :=
  m ∈ col ∧ ∀ x, x ∈ col → String.le m x.
Definition is_greatest (m : string) (col : list string) : Prop :=
  m ∈ col ∧ ∀ x, x ∈ col → String.le x m.

(** [out] is a deduplication of [rows]: one row for each key of [rows],
    which is the first row of that key but for its time span, the least
    start and the greatest end among the rows of the key. *)
Definition deduplicated (rows out : list Series) : Prop :=
  NoDup (key <$> out)
  ∧ (∀ k, k ∈ key <$> out ↔ k ∈ key <$> rows)
  ∧ ∀ r, r ∈ out →
      ∃ first rest,
        filter (λ x, key x = key r) rows = first :: rest
        ∧ key r = key first ∧ attrs r = attrs first ∧ files r = files first
        ∧ is_least (time_start r) (time_start <$> first :: rest)
        ∧ is_greatest (time_end r) (time_end <$> first :: rest).

(** A table with a repeated key, as the driver builds it from several
    fetches. *)
Definition sample_store : heap :=
  [ mkSeries "CMIP6.tas" {["variable_id" := "tas"]} ["tas_a.nc"] "2000" "2025";
    mkSeries "CMIP6.areacella" {["variable_id" := "areacella"]} ["areacella.nc"]
      "0101" "0125";
    mkSeries "CMIP6.tas" {["variable_id" := "tas"]} ["tas_b.nc"] "0101" "0180" ].
Definition sample_table : DataFrame := [0; 1; 2].

(** ** Grid datasets *)

(** [dataset.<name>] for a dimension [name]: the names of the dimensions
    the array runs over and its entries along the leading one.  Grid
    coordinates are carried as integers; nothing below looks into a
    spatial one.  A time label is a month, counted from January of year
    0: the slicing by year labels and the [%Y%m] format need no more than
    the month of a date. *)
Record DataArray : Type := mkDataArray {
  dims : list string;
  values : list Z;
}.

(** An [xr.Dataset], reduced to its dimensions: each dimension name with
    the array [dataset.<name>].  The data variables play no part in what
    the script decides. *)
Abbreviation Dataset := (gmap string DataArray).

(** [name in dataset.dims] *)
Definition in_dims (name : string) (dataset : Dataset) : bool :=
  bool_decide (is_Some (dataset !! name)).

(** [dataset.<name>] *)
Definition getattr (dataset : Dataset) (name : string) : outcome DataArray :=
  match dataset !! name with
  | Some a => Ok a
  | None => Raise (AttributeError name)
  end.

(** [len(a)] and [a.size] of an array along one dimension. *)
Definition len (a : DataArray) : nat := length (values a).

(** [a[lo:hi]] for indices that are not negative. *)
Definition slice (lo hi : nat) (a : DataArray) : DataArray :=
  mkDataArray (dims a) (take (hi - lo) (drop lo (values a))).

(** [dataset.interp(name=a, ...)]: the dataset on the new coordinates.
    The targets being points of the dataset's own coordinates, this is a
    selection.  It is what a call returns when it returns: the library
    raises on a coordinate it cannot interpolate over (an empty one, one
    with a repeated label), and that is not in this function; see
    [decimate_dataset_with] below for the function over the library as it
    is. *)
Definition interp (dataset : Dataset) (targets : list (string * DataArray)) : Dataset :=
  foldl (λ ds t, <[t.1 := t.2]> ds) dataset targets.

(** A year label such as ["2000"] or ["0101"]. *)
Definition digit_of (c : ascii) : option Z :=
  let n := nat_of_ascii c in
  if bool_decide (48 ≤ n ≤ 57) then Some (Z.of_nat (n - 48)) else None.

Fixpoint parse_digits (acc : Z) (s : string) : option Z :=
  match s with
  | EmptyString => Some acc
  | String c s' => d ← digit_of c; parse_digits (10 * acc + d)%Z s'
  end.

Definition parse_year (s : string) : option Z :=
  match s with
  | EmptyString => None
  | _ => parse_digits 0 s
  end.

Definition year_of (t : Z) : Z := (t `div` 12)%Z.
Definition month_of (t : Z) : Z := (t `mod` 12 + 1)%Z.

(** [ds.sel(time=slice(start, stop))] with year labels, as the driver
    stamps them: the label-based slice keeps both ends, from the first
    month of [start] to the last month of [stop].  A bound that is not a
    year label is an error.  This is the selection on a sorted time axis
    whose calendar holds the years of the span; what the library does
    with finer labels, with years outside the calendar of the axis or
    with an axis out of order is not in this function. *)
Definition sel_time (ds : Dataset) (span : string * string) : outcome Dataset :=
  time ← getattr ds "time";
  match parse_year span.1, parse_year span.2 with
  | Some lo, Some hi =>
      Ok (<["time" :=
             mkDataArray (dims time)
               (filter (λ t, (lo ≤ year_of t ≤ hi)%Z) (values time))]> ds)
  | _, _ => Raise (ValueError "no year label")
  end.

(** ** decimate_dataset *)

(** The branch of a latitude/longitude grid. *)
Definition decimate_latlon (dataset : Dataset) : outcome Dataset :=
  lat ← getattr dataset "lat";
  lon ← getattr dataset "lon";
  if bool_decide (length (dims lat) = 1) && bool_decide (length (dims lon) = 1)
  then Ok (interp dataset [("lat", slice 0 10 lat); ("lon", slice 0 10 lon)])
  else Raise AssertionError.

(** The branch of an index grid. *)
Definition decimate_ij (dataset : Dataset) : outcome Dataset :=
  i ← getattr dataset "i";
  j ← getattr dataset "j";
  let j_midpoint := len j / 2 in
  Ok (interp dataset
        [("i", slice 0 10 i); ("j", slice j_midpoint (j_midpoint + 10) j)]).

(** The closing lines: the clip to the time span, and the sentinel when
    nothing is left. *)
Definition clip_time (dataset result : Dataset)
    (time_span : option (string * string)) : outcome (option Dataset) :=
  match in_dims "time" dataset, time_span with
  | true, Some span =>
      result ← sel_time result span;
      time ← getattr result "time";
      if bool_decide (len time = 0) then Ok None else Ok (Some result)
  | _, _ => Ok (Some result)
  end.

Definition decimate_dataset (dataset : Dataset)
    (time_span : option (string * string)) : outcome (option Dataset) :=
  let has_latlon := in_dims "lat" dataset && in_dims "lon" dataset in
  let has_ij := in_dims "i" dataset && in_dims "j" dataset in
  result ←
    (if has_latlon then decimate_latlon dataset
     else if has_ij then decimate_ij dataset
     else Raise (ValueError "Cannot decimate this grid: too many dimensions"));
  clip_time dataset result time_span.

(** [result.time.size], when there is a time dimension. *)
Definition time_size (ds : Dataset) : option nat := len <$> ds !! "time".



(** ** decimate_dataset over the library as it is *)

(** The same function with [Dataset.interp] and [Dataset.sel] left to the
    library: whether a call returns or raises, and what it returns, is
    xarray's.  [interp] and [sel_time] above are one way for the two to
    behave. *)
Section library.

Variable xr_interp : Dataset → list (string * DataArray) → outcome Dataset.
Variable xr_sel : Dataset → string * string → outcome Dataset.

(** The cut of the grid: the detection of the grid, the assertion and the
    call of [interp]. *)
Definition cut_grid (dataset : Dataset) : outcome Dataset :=
  let has_latlon := in_dims "lat" dataset && in_dims "lon" dataset in
  let has_ij := in_dims "i" dataset && in_dims "j" dataset in
  if has_latlon then
    lat ← getattr dataset "lat";
    lon ← getattr dataset "lon";
    if bool_decide (length (dims lat) = 1) && bool_decide (length (dims lon) = 1)
    then xr_interp dataset [("lat", slice 0 10 lat); ("lon", slice 0 10 lon)]
    else Raise AssertionError
  else if has_ij then
    i ← getattr dataset "i";
    j ← getattr dataset "j";
    let j_midpoint := len j / 2 in
    xr_interp dataset
      [("i", slice 0 10 i); ("j", slice j_midpoint (j_midpoint + 10) j)]
  else Raise (ValueError "Cannot decimate this grid: too many dimensions").

Definition decimate_dataset_with (dataset : Dataset)
    (time_span : option (string * string)) : outcome (option Dataset) :=
  result ← cut_grid dataset;
  match in_dims "time" dataset, time_span with
  | true, Some span =>
      result ← xr_sel result span;
      time ← getattr result "time";
      if bool_decide (len time = 0) then Ok None else Ok (Some result)
  | _, _ => Ok (Some result)
  end.

End library.


(** Sample datasets. *)
Definition axis (name : string) (n : nat) : DataArray :=
  mkDataArray [name] (Z.of_nat <$> seq 0 n).
Definition months_2000 : DataArray :=
  mkDataArray ["time"] ((λ m, 24000 + Z.of_nat m)%Z <$> seq 0 12).

Definition atmos_2000 : Dataset :=
  {[ "lat" := axis "lat" 145; "lon" := axis "lon" 192; "time" := months_2000 ]}.
Definition ocean_2000 : Dataset :=
  {[ "i" := axis "i" 12; "j" := axis "j" 30; "time" := months_2000 ]}.
Definition time_only : Dataset := {[ "time" := months_2000 ]}.
Definition both_grids : Dataset :=
  {[ "lat" := axis "lat" 12; "lon" := axis "lon" 12;
     "i" := axis "i" 30; "j" := axis "j" 30 ]}.

(** A dataset whose latitude is a two-dimensional array under the name of
    a dimension. *)
Definition curvilinear : Dataset :=
  {[ "lat" := mkDataArray ["lat"; "lon"] [0; 1; 2]%Z; "lon" := axis "lon" 3;
     "i" := axis "i" 3; "j" := axis "j" 3 ]}.

(** ** Paths *)

(** [s.startswith("/")] and [s.endswith("/")] *)
Definition startswith_sep (s : string) : bool :=
  match s with
  | String c _ => bool_decide (c = "/"%char)
  | EmptyString => false
  end.

Fixpoint endswith_sep (s : string) : bool :=
  match s with
  | EmptyString => false
  | String c EmptyString => bool_decide (c = "/"%char)
  | String _ s' => endswith_sep s'
  end.

(** One turn of the loop of [posixpath.join]: a component that starts at
    the root replaces what came before, any other is appended, after a
    separator unless the path is empty or ends in one. *)
Definition join_component (path b : string) : string :=
  if startswith_sep b then b
  else if bool_decide (path = "") || endswith_sep path then path +:+ b
  else path +:+ "/" +:+ b.

(** [os.path.join] of a list of components, one at least. *)
Definition os_path_join (components : list string) : outcome string :=
  match components with
  | [] => Raise TypeError
  | a :: p => Ok (foldl join_component a p)
  end.

(** [s.split("/")] *)
Fixpoint split_sep (s : string) : list string :=
  match s with
  | EmptyString => [""]
  | String c s' =>
      if bool_decide (c = "/"%char) then "" :: split_sep s'
      else match split_sep s' with
           | w :: ws => String c w :: ws
           | [] => [String c ""]
           end
  end.

(** A [pathlib.Path] on a POSIX system: the root, if any, and the names
    below it. *)
Record PosixPath : Type := mkPath {
  root : string;
  names : list string;
}.

(** The names of a path string: the pieces between separators, the empty
    ones and the dots left out. *)
Definition names_of (s : string) : list string :=
  filter (λ x, x ≠ "" ∧ x ≠ ".") (split_sep s).

(** Two leading separators, and no more, make a root of their own. *)
Definition root_of (s : string) : string :=
  match s with
  | String "/" (String "/" (String "/" _)) => "/"
  | String "/" (String "/" _) => "//"
  | String "/" _ => "/"
  | _ => ""
  end.

(** [Path(s)] *)
Definition Path (s : string) : PosixPath := mkPath (root_of s) (names_of s).

(** [path / s] *)
Definition truediv (path : PosixPath) (s : string) : PosixPath :=
  if startswith_sep s then Path s
  else mkPath (root path) (names path ++ names_of s).

(** ** create_out_filename *)

(** [sep.join(items)] *)
Fixpoint str_join (sep : string) (items : list string) : string :=
  match items with
  | [] => ""
  | [x] => x
  | x :: rest => x +:+ sep +:+ str_join sep rest
  end.

(** A number in decimal, with zeros in front up to [width] digits. *)
Definition zfill (width : nat) (n : Z) : string :=
  let digits := NilZero.string_of_uint (N.to_uint (Z.to_N n)) in
  String.concat "" (replicate (width - String.length digits) "0") +:+ digits.

(** [t.strftime("%Y%m")] *)
Definition strftime_Ym (t : Z) : string :=
  zfill 4 (year_of t) +:+ zfill 2 (month_of t).

(** [a.min()] and [a.max()]; an array without entries has neither. *)
Definition array_min (a : DataArray) : outcome Z :=
  match values a with
  | [] => Raise (ValueError "zero-size array to reduction operation")
  | t :: ts => Ok (foldl Z.min t ts)
  end.
Definition array_max (a : DataArray) : outcome Z :=
  match values a with
  | [] => Raise (ValueError "zero-size array to reduction operation")
  | t :: ts => Ok (foldl Z.max t ts)
  end.

(** [metadata[item]] and [metadata.<name>] on the facet columns. *)
Definition getitem (metadata : Series) (item : string) : outcome string :=
  match attrs metadata !! item with
  | Some v => Ok v
  | None => Raise (KeyError item)
  end.
Definition getfield (metadata : Series) (name : string) : outcome string :=
  match attrs metadata !! name with
  | Some v => Ok v
  | None => Raise (AttributeError name)
  end.

Definition cmip6_path_items : list string :=
  [ "mip_era"; "activity_drs"; "institution_id"; "source_id"; "experiment_id";
    "member_id"; "table_id"; "variable_id"; "grid_label" ].
Definition cmip6_filename_paths : list string :=
  [ "variable_id"; "table_id"; "source_id"; "experiment_id"; "member_id";
    "grid_label" ].
Definition obs4mips_path_items : list string :=
  [ "activity_id"; "institution_id"; "source_id"; "variable_id"; "grid_label" ].
Definition obs4mips_filename_paths : list string :=
  [ "variable_id"; "source_id"; "grid_label" ].

(** The directory and the filename prefix for one of the two schemas. *)
Definition layout (metadata : Series) (path_items filename_paths : list string)
    : outcome (PosixPath * string) :=
  components ← mapM (getitem metadata) path_items;
  directory ← os_path_join components;
  version ← getitem metadata "version";
  prefix_items ← mapM (getitem metadata) filename_paths;
  Ok (truediv (Path directory) ("v" +:+ version), str_join "_" prefix_items).

Definition create_out_filename (metadata : Series) (ds : Dataset)
    : outcome PosixPath :=
  project ← getfield metadata "project";
  '(output_path, filename_prefix) ←
    (if bool_decide (project = "obs4MIPs")
     then layout metadata obs4mips_path_items obs4mips_filename_paths
     else layout metadata cmip6_path_items cmip6_filename_paths);
  filename ←
    (if in_dims "time" ds then
       time ← getattr ds "time";
       first ← array_min time;
       last ← array_max time;
       let time_range := strftime_Ym first +:+ "-" +:+ strftime_Ym last in
       Ok (filename_prefix +:+ "_" +:+ time_range +:+ ".nc")
     else Ok (filename_prefix +:+ ".nc"));
  Ok (truediv output_path filename).

(** The label of a month of a year. *)
Definition month_label (year month : Z) : Z := (year * 12 + (month - 1))%Z.

(** Sample records. *)
Definition tas_record : Series :=
  mkSeries "CMIP6.CMIP.CSIRO.ACCESS-ESM1-5.historical.r1i1p1f1.Amon.tas.gn"
    (list_to_map
       [ ("project", "CMIP6"); ("mip_era", "CMIP6"); ("activity_drs", "CMIP");
         ("institution_id", "CSIRO"); ("source_id", "ACCESS-ESM1-5");
         ("experiment_id", "historical"); ("member_id", "r1i1p1f1");
         ("table_id", "Amon"); ("variable_id", "tas"); ("grid_label", "gn");
         ("version", "20191115") ])
    ["tas_Amon_ACCESS-ESM1-5_historical_r1i1p1f1_gn_185001-201412.nc"]
    "2000" "2025".

Definition airs_record : Series :=
  mkSeries "obs4MIPs.NASA-JPL.AIRS-2-1.ta.gn"
    (list_to_map
       [ ("project", "obs4MIPs"); ("activity_id", "obs4MIPs");
         ("institution_id", "NASA-JPL"); ("source_id", "AIRS-2-1");
         ("variable_id", "ta"); ("grid_label", "gn"); ("version", "1-1") ])
    ["ta_AIRS-2-1_gn_200209-201609.nc"]
    "2002" "2016".

Definition grid_without_time : Dataset :=
  {[ "lat" := axis "lat" 10; "lon" := axis "lon" 10 ]}.

(** ** Plain names and the two schemas *)

(** Whether a separator occurs in a string. *)
Fixpoint has_sep (s : string) : bool :=
  match s with
  | EmptyString => false
  | String c s' => bool_decide (c = "/"%char) || has_sep s'
  end.

(** A string that is one name of a path: not empty, not the dot, and
    without a separator. *)
Definition plain (s : string) : Prop := s ≠ "" ∧ s ≠ "." ∧ has_sep s = false.

(** The columns [create_out_filename] reads for a project. *)
Definition schema_path_items (project : string) : list string :=
  if bool_decide (project = "obs4MIPs") then obs4mips_path_items
  else cmip6_path_items.
Definition schema_filename_paths (project : string) : list string :=
  if bool_decide (project = "obs4MIPs") then obs4mips_filename_paths
  else cmip6_filename_paths.

(** The obs4MIPs sample record without its activity column. *)
Definition airs_incomplete : Series :=
  mkSeries (key airs_record) (delete "activity_id" (attrs airs_record))
    (files airs_record) (time_start airs_record) (time_end airs_record).

(** ** The loop of the script *)

(** [OUTPUT_PATH] *)
Definition OUTPUT_PATH : PosixPath := Path "data".

(** [path.name]: the last name of a path, empty when it has none. *)
Definition path_name (s : string) : string := default "" (last (names_of s)).

(** [s.split("_")[0]]: what comes before the first underscore. *)
Fixpoint before_underscore (s : string) : string :=
  match s with
  | EmptyString => ""
  | String c s' =>
      if bool_decide (c = "_"%char) then "" else String c (before_underscore s')
  end.

(** [path / other] for two paths: a path with a root stands for itself. *)
Definition truediv_path (path other : PosixPath) : PosixPath :=
  if bool_decide (root other = "") then
    mkPath (root path) (names path ++ names other)
  else other.

Section driver.

(** [xr.open_dataset]: what is in the files is not the script's. *)
Variable open_dataset : string → outcome Dataset.

(** The body of the inner loop for one file of one record: [None] when the
    file is passed over, or the path and the dataset handed to
    [to_netcdf]. *)
Definition process_file (dataset : Series) (ds_filename : string)
    : outcome (option (PosixPath * Dataset)) :=
  variable_id ← getfield dataset "variable_id";
  if bool_decide (before_underscore (path_name ds_filename) ≠ variable_id)
  then Ok None
  else
    ds_orig ← open_dataset ds_filename;
    ds_decimated ←
      decimate_dataset ds_orig (Some (time_start dataset, time_end dataset));
    match ds_decimated with
    | None => Ok None
    | Some ds_decimated =>
        output_filename ← create_out_filename dataset ds_decimated;
        Ok (Some (truediv_path OUTPUT_PATH output_filename, ds_decimated))
    end.

(** The files written so far, in the order of the writes, and the
    exception that ended the run, if one did.  What was written before an
    exception stays written.  The making of the directories and the
    writing itself are taken to succeed. *)
Fixpoint write_files (dataset : Series) (filenames : list string)
    (written : list (PosixPath * Dataset))
    : list (PosixPath * Dataset) * option exn :=
  match filenames with
  | [] => (written, None)
  | ds_filename :: rest =>
      match process_file dataset ds_filename with
      | Raise e => (written, Some e)
      | Ok None => write_files dataset rest written
      | Ok (Some w) => write_files dataset rest (written ++ [w])
      end
  end.

Fixpoint main_loop (datasets : list Series)
    (written : list (PosixPath * Dataset))
    : list (PosixPath * Dataset) * option exn :=
  match datasets with
  | [] => (written, None)
  | dataset :: rest =>
      match write_files dataset (files dataset) written with
      | (written', None) => main_loop rest written'
      | stopped => stopped
      end
  end.

End driver.

(** A name that leads downwards: a plain name other than the double dot,
    which is the name of the parent directory. *)
Definition downward (s : string) : Prop := plain s ∧ s ≠ "..".

(** A record of downward names: its project, the path columns of its
    schema and its version are there, the values of the path columns are
    downward names and the version has no separator. *)
Definition downward_record (dataset : Series) : Prop :=
  ∃ project components version,
    attrs dataset !! "project" = Some project
    ∧ Forall2 (λ k v, attrs dataset !! k = Some v)
        (schema_path_items project) components
    ∧ attrs dataset !! "version" = Some version
    ∧ Forall downward components ∧ has_sep version = false.

(** A dataset cut down to 10 points at most along both dimensions of its
    grid. *)
Definition small_grid (ds : Dataset) : Prop :=
  (∃ lat lon, ds !! "lat" = Some lat ∧ ds !! "lon" = Some lon
     ∧ len lat ≤ 10 ∧ len lon ≤ 10)
  ∨ (∃ i j, ds !! "i" = Some i ∧ ds !! "j" = Some j
       ∧ len i ≤ 10 ∧ len j ≤ 10).

(** A small file system for the samples. *)
Definition sample_files (ds_filename : string) : outcome Dataset :=
  if bool_decide
       (ds_filename = "tas_Amon_ACCESS-ESM1-5_historical_r1i1p1f1_gn_185001-201412.nc")
  then Ok atmos_2000
  else Raise (ValueError "no such file").

(** The sample record with a file of another variable listed first, and a
    file system that differs from [sample_files] on that file only. *)
Definition mixed_record : Series :=
  mkSeries (key tas_record) (attrs tas_record)
    ("areacella_fx_ACCESS-ESM1-5_historical_r1i1p1f1_gn.nc" :: files tas_record)
    (time_start tas_record) (time_end tas_record).

Definition other_files (ds_filename : string) : outcome Dataset :=
  if bool_decide
       (ds_filename = "tas_Amon_ACCESS-ESM1-5_historical_r1i1p1f1_gn_185001-201412.nc")
  then Ok atmos_2000
  else Ok ocean_2000.

(** ** Running the store monad *)

Section run.
Context {A B : Type}.

Lemma bind_Ok (m : M A) (f : A → M B) h a h' :
  m h = Ok (a, h') → (m ≫= f) h = f a h'.
Proof. intros E. unfold mbind, M_bind. by rewrite E. Qed.

Lemma bind_Raise (m : M A) (f : A → M B) h e :
  m h = Raise e → (m ≫= f) h = Raise e.
Proof. intros E. unfold mbind, M_bind. by rewrite E. Qed.

Lemma ret_Ok (a : A) h : (mret a : M A) h = Ok (a, h).
Proof. reflexivity. Qed.
End run.

Lemma load_Ok h l s : h !! l = Some s → load l h = Ok (s, h).
Proof. intros E. unfold load. by rewrite E. Qed.

Lemma store_Ok h l f s : h !! l = Some s → store l f h = Ok ((), <[l := f s]> h).
Proof. intros E. unfold store. by rewrite E. Qed.

Lemma store_last h s f : store (length h) f (h ++ [s]) = Ok ((), h ++ [f s]).
Proof.
  rewrite (store_Ok _ _ _ s).
  - do 2 f_equal. rewrite insert_app_r_alt, Nat.sub_diag; [done | lia].
  - by rewrite lookup_app_r, Nat.sub_diag.
Qed.

Lemma read_table_Forall2 h df rows :
  read_table h df = Some rows ↔ Forall2 (λ l s, h !! l = Some s) df rows.
Proof. apply mapM_Some. Qed.

Lemma read_table_app h ext df rows :
  read_table h df = Some rows → read_table (h ++ ext) df = Some rows.
Proof.
  rewrite !read_table_Forall2. intros H. eapply Forall2_impl; [exact H |].
  intros l s E. by apply lookup_app_l_Some.
Qed.

Lemma column_Ok f h df rows :
  read_table h df = Some rows → column f df h = Ok (f <$> rows, h).
Proof.
  rewrite read_table_Forall2. unfold column.
  induction 1 as [| l s df rows E _ IH]; [done |]. cbn [mapM].
  rewrite (bind_Ok _ _ _ (f s) h).
  - by rewrite (bind_Ok _ _ _ _ _ IH).
  - by rewrite (bind_Ok _ _ _ _ _ (load_Ok _ _ _ E)).
Qed.

(** ** The run of deduplicate_datasets *)

(** One group: the representative is a new object at the end of the store,
    and nothing that was in the store changes. *)
Lemma _deduplicate_group_Ok h group rows s :
  read_table h group = Some rows → widen rows = Some s →
  _deduplicate_group group h = Ok (length h, h ++ [s]).
Proof.
  intros Hread Hw. destruct rows as [| first rest]; [done |].
  injection Hw as <-.
  pose proof Hread as Hall. apply read_table_Forall2 in Hall.
  destruct group as [| l0 group]; inversion Hall as [| ? ? ? ? Hl0 _]; subst.
  unfold _deduplicate_group.
  rewrite (bind_Ok _ _ _ (length h) (h ++ [first])); last first.
  { cbn. rewrite (bind_Ok _ _ _ l0 h) by done.
    unfold copy. by rewrite (bind_Ok _ _ _ _ _ (load_Ok _ _ _ Hl0)). }
  rewrite (bind_Ok _ _ _ _ _
             (column_Ok time_start _ _ _ (read_table_app _ [first] _ _ Hread))).
  cbn [fmap list_fmap Series_min]. rewrite (bind_Ok _ _ _ _ _ (ret_Ok _ _)).
  rewrite (bind_Ok _ _ _ _ _ (store_last _ _ _)).
  rewrite (bind_Ok _ _ _ _ _
             (column_Ok time_end _ _ _ (read_table_app _ [_] _ _ Hread))).
  cbn [fmap list_fmap Series_max]. rewrite (bind_Ok _ _ _ _ _ (ret_Ok _ _)).
  by rewrite (bind_Ok _ _ _ _ _ (store_last _ _ _)).
Qed.

(** The rows of the group labelled [k], read through the group's own
    references. *)
Lemma read_group h df rows k :
  read_table h df = Some rows →
  read_table h (filter (λ p, p.2 = k) (zip df (key <$> rows))).*1
  = Some (filter (λ s, key s = k) rows).
Proof.
  rewrite !read_table_Forall2.
  induction 1 as [| l s df rows E _ IH]; [constructor |].
  cbn [fmap list_fmap zip zip_with]. rewrite !filter_cons. cbn [snd].
  destruct (decide (key s = k)); [| done].
  cbn. by constructor.
Qed.

Lemma groupby_key_Ok h df rows :
  read_table h df = Some rows →
  groupby_key df h =
    Ok ((λ k, (k, (filter (λ p, p.2 = k) (zip df (key <$> rows))).*1))
          <$> merge_sort String.le (remove_dups (key <$> rows)), h).
Proof.
  intros Hread. unfold groupby_key.
  by rewrite (bind_Ok _ _ _ _ _ (column_Ok key _ _ _ Hread)).
Qed.

Lemma apply_reset_index_Ok h0 rows (groups : list (string * DataFrame)) out :
  Forall2 (λ kg s,
    read_table h0 kg.2 = Some (filter (λ r, key r = kg.1) rows)
    ∧ represents rows kg.1 s) groups out →
  ∀ ext, ∃ df' ext',
    apply_reset_index _deduplicate_group groups (h0 ++ ext)
    = Ok (df', h0 ++ ext ++ ext')
    ∧ read_table (h0 ++ ext ++ ext') df' = Some out.
Proof.
  unfold apply_reset_index.
  induction 1 as [| [k g] s groups out [Hg (s' & Hw & ->)] _ IH]; intros ext.
  { exists [], []. by rewrite app_nil_r. }
  cbn [mapM fst snd] in *.
  pose proof (_deduplicate_group_Ok _ _ _ _ (read_table_app _ ext _ _ Hg) Hw)
    as Hrun.
  destruct (IH (ext ++ [s'; with_key k s'])) as (df' & ext' & Hrest & Hout).
  exists (S (length (h0 ++ ext)) :: df'), ([s'; with_key k s'] ++ ext').
  assert (h0 ++ ext ++ [s'; with_key k s'] ++ ext'
          = h0 ++ (ext ++ [s'; with_key k s']) ++ ext') as ->
    by (by rewrite <- !app_assoc).
  assert ((_deduplicate_group g ≫= λ r, load r ≫= λ s, alloc (with_key k s))
            (h0 ++ ext)
          = Ok (S (length (h0 ++ ext)), h0 ++ ext ++ [s'; with_key k s']))
    as Hstep.
  { rewrite (bind_Ok _ _ _ _ _ Hrun).
    rewrite (bind_Ok _ _ _ s' ((h0 ++ ext) ++ [s'])).
    - unfold alloc. rewrite (length_app _ [s']). cbn.
      do 2 f_equal; [lia |]. by rewrite <- !app_assoc.
    - apply load_Ok. by rewrite lookup_app_r, Nat.sub_diag. }
  split.
  - rewrite (bind_Ok _ _ _ _ _ Hstep). by rewrite (bind_Ok _ _ _ _ _ Hrest).
  - apply read_table_Forall2. constructor; [| by apply read_table_Forall2].
    rewrite app_assoc. apply lookup_app_l_Some.
    rewrite app_assoc, lookup_app_r by lia.
    by replace (S (length (h0 ++ ext)) - length (h0 ++ ext)) with 1 by lia.
Qed.

Lemma represents_total rows labels :
  (∀ k, k ∈ labels → k ∈ key <$> rows) →
  ∃ out, Forall2 (represents rows) labels out.
Proof.
  induction labels as [| k labels IH]; intros Hin; [by exists [] |].
  destruct IH as [out Hout]; [intros k' ?; apply Hin; by right |].
  assert (k ∈ key <$> rows) as (r & Hk & Hr)%list_elem_of_fmap
    by (apply Hin; by left).
  assert (r ∈ filter (λ x, key x = k) rows) as Hmem
    by (by apply list_elem_of_filter).
  destruct (filter (λ x, key x = k) rows) as [| first rest] eqn:Hg.
  { by apply not_elem_of_nil in Hmem. }
  eexists (_ :: out). constructor; [| done].
  eexists. split; [| done]. unfold widen. by rewrite Hg.
Qed.

Lemma deduplicate_datasets_Ok h datasets rows :
  read_table h datasets = Some rows →
  ∃ result ext out,
    deduplicate_datasets datasets h = Ok (result, h ++ ext)
    ∧ read_table (h ++ ext) result = Some out
    ∧ Forall2 (represents rows)
        (merge_sort String.le (remove_dups (key <$> rows))) out.
Proof.
  intros Hread.
  destruct (represents_total rows
              (merge_sort String.le (remove_dups (key <$> rows))))
    as [out Hout].
  { intros k. rewrite merge_sort_Permutation. apply elem_of_remove_dups. }
  destruct (apply_reset_index_Ok h rows
              ((λ k, (k, (filter (λ p, p.2 = k) (zip datasets (key <$> rows))).*1))
                 <$> merge_sort String.le (remove_dups (key <$> rows))) out)
    with (ext := @nil Series) as (result & ext & Hrun & Hres).
  { apply Forall2_fmap_l. eapply Forall2_impl; [exact Hout |].
    intros k s Hs. split; [| done]. cbn. by apply read_group. }
  rewrite app_nil_r in Hrun. cbn [app] in *.
  exists result, ext, out. split_and!; [| done..].
  unfold deduplicate_datasets.
  by rewrite (bind_Ok _ _ _ _ _ (groupby_key_Ok _ _ _ Hread)).
Qed.

(** ** Least and greatest string of a column *)

Lemma str_min_cases a b :
  (str_min a b = a ∨ str_min a b = b)
  ∧ String.le (str_min a b) a ∧ String.le (str_min a b) b.
Proof.
  unfold str_min. destruct (String.leb a b) eqn:E.
  - split_and!; [by left | done | by apply Is_true_true].
  - destruct (total String.le a b) as [H | H].
    + apply Is_true_true in H. unfold String.le in *. congruence.
    + split_and!; [by right | done | done].
Qed.

Lemma str_max_cases a b :
  (str_max a b = a ∨ str_max a b = b)
  ∧ String.le a (str_max a b) ∧ String.le b (str_max a b).
Proof.
  unfold str_max. destruct (String.leb a b) eqn:E.
  - split_and!; [by right | by apply Is_true_true | done].
  - destruct (total String.le a b) as [H | H].
    + apply Is_true_true in H. unfold String.le in *. congruence.
    + split_and!; [by left | done | done].
Qed.

Lemma foldl_str_min_least xs x : is_least (foldl str_min x xs) (x :: xs).
Proof.
  revert x. induction xs as [| a xs IH]; intros x; cbn [foldl].
  { split; [by left |]. by intros y ->%list_elem_of_singleton. }
  destruct (IH (str_min x a)) as [Hin Hle].
  destruct (str_min_cases x a) as (Hc & Hx & Ha).
  assert (String.le (foldl str_min (str_min x a) xs) (str_min x a)) as Hm
    by (apply Hle; by left).
  split.
  - apply elem_of_cons in Hin as [-> | Hin].
    + destruct Hc as [-> | ->]; [by left | right; by left].
    + by do 2 right.
  - intros y [-> | [-> | Hy]%elem_of_cons]%elem_of_cons.
    + by etrans.
    + by etrans.
    + apply Hle. by right.
Qed.

Lemma foldl_str_max_greatest xs x : is_greatest (foldl str_max x xs) (x :: xs).
Proof.
  revert x. induction xs as [| a xs IH]; intros x; cbn [foldl].
  { split; [by left |]. by intros y ->%list_elem_of_singleton. }
  destruct (IH (str_max x a)) as [Hin Hle].
  destruct (str_max_cases x a) as (Hc & Hx & Ha).
  assert (String.le (str_max x a) (foldl str_max (str_max x a) xs)) as Hm
    by (apply Hle; by left).
  split.
  - apply elem_of_cons in Hin as [-> | Hin].
    + destruct Hc as [-> | ->]; [by left | right; by left].
    + by do 2 right.
  - intros y [-> | [-> | Hy]%elem_of_cons]%elem_of_cons.
    + by etrans.
    + by etrans.
    + apply Hle. by right.
Qed.

Lemma represents_spec rows k s :
  represents rows k s →
  key s = k
  ∧ ∃ first rest,
      filter (λ x, key x = k) rows = first :: rest
      ∧ key s = key first ∧ attrs s = attrs first ∧ files s = files first
      ∧ is_least (time_start s) (time_start <$> first :: rest)
      ∧ is_greatest (time_end s) (time_end <$> first :: rest).
Proof.
  intros (s' & Hw & ->). split; [done |].
  destruct (filter (λ x, key x = k) rows) as [| first rest] eqn:Hg; [done |].
  injection Hw as <-. exists first, rest. cbn.
  assert (first ∈ filter (λ x, key x = k) rows) as [Hk _]%list_elem_of_filter
    by (rewrite Hg; by left).
  split_and!; try done.
  - apply foldl_str_min_least.
  - apply foldl_str_max_greatest.
Qed.

Lemma represents_deduplicated rows out :
  Forall2 (represents rows) (merge_sort String.le (remove_dups (key <$> rows))) out →
  deduplicated rows out.
Proof.
  intros Hout.
  assert (key <$> out = merge_sort String.le (remove_dups (key <$> rows))) as Hkeys.
  { clear -Hout. induction Hout as [| k s ks out Hs _ IH]; [done |].
    cbn. f_equal; [| done]. by apply represents_spec in Hs as [? _]. }
  split_and!.
  - rewrite Hkeys, merge_sort_Permutation. apply NoDup_remove_dups.
  - intros k. rewrite Hkeys, merge_sort_Permutation. apply elem_of_remove_dups.
  - intros r Hr.
    apply list_elem_of_lookup in Hr as [i Hi].
    destruct (Forall2_lookup_r _ _ _ _ _ Hout Hi) as (k & _ & Hs).
    apply represents_spec in Hs as [<- Hs]. exact Hs.
Qed.

(** C1. Deduplication of a table of dataset records, with repeated keys or
    without, returns a table with exactly one row for each key of the
    input; that row has the key, the facet columns and the files of the
    first input row of its key, its [time_start] is the least [time_start]
    and its [time_end] the greatest [time_end] of the rows of that key. *)
Theorem deduplicate_datasets_one_row_per_key h datasets rows :
  read_table h datasets = Some rows →
  ∃ result h' out,
    deduplicate_datasets datasets h = Ok (result, h')
    ∧ read_table h' result = Some out
    ∧ deduplicated rows out.
Proof.
  intros Hread.
  destruct (deduplicate_datasets_Ok _ _ _ Hread)
    as (result & ext & out & Hrun & Hout & Hrep).
  exists result, (h ++ ext), out. split_and!; [done.. |].
  by apply represents_deduplicated.
Qed.

Lemma deduplicate_datasets_one_row_per_key_witness :
  read_table sample_store sample_table = Some sample_store
  ∧ ∃ result h' out,
      deduplicate_datasets sample_table sample_store = Ok (result, h')
      ∧ read_table h' result = Some out
      ∧ deduplicated sample_store out.
Proof.
  split; [reflexivity |].
  apply (deduplicate_datasets_one_row_per_key sample_store sample_table).
  reflexivity.
Defined.

(** C10. [deduplicate_datasets] leaves its input as it was: the function
    writes only to the copy it takes of the first row of a group, so after
    the call every object that was in the store, hence every row of the
    input table with its [time_start] and [time_end], is unchanged. *)
Theorem deduplicate_datasets_input_unchanged h datasets rows :
  read_table h datasets = Some rows →
  ∃ result h',
    deduplicate_datasets datasets h = Ok (result, h')
    ∧ (∀ l s, h !! l = Some s → h' !! l = Some s)
    ∧ read_table h' datasets = Some rows.
Proof.
  intros Hread.
  destruct (deduplicate_datasets_Ok _ _ _ Hread)
    as (result & ext & out & Hrun & _ & _).
  exists result, (h ++ ext). split_and!; [done | |].
  - intros l s. apply lookup_app_l_Some.
  - by apply read_table_app.
Qed.

Lemma deduplicate_datasets_input_unchanged_witness :
  read_table sample_store sample_table = Some sample_store
  ∧ ∃ result h',
      deduplicate_datasets sample_table sample_store = Ok (result, h')
      ∧ (∀ l s, sample_store !! l = Some s → h' !! l = Some s)
      ∧ read_table h' sample_table = Some sample_store.
Proof.
  split; [reflexivity |].
  apply (deduplicate_datasets_input_unchanged sample_store sample_table).
  reflexivity.
Defined.

(** The sample table run through the model: two rows come back, the keys in
    ascending order, the span of ["CMIP6.tas"] widened to both fetches. *)
Example deduplicate_sample :
  ∃ h', deduplicate_datasets sample_table sample_store = Ok ([4; 6], h')
    ∧ read_table h' [4; 6] = Some
        [ mkSeries "CMIP6.areacella" {["variable_id" := "areacella"]}
            ["areacella.nc"] "0101" "0125";
          mkSeries "CMIP6.tas" {["variable_id" := "tas"]} ["tas_a.nc"]
            "0101" "2025" ]
    ∧ read_table h' sample_table = Some sample_store.
Proof. eexists. split; [vm_compute; reflexivity |]. by vm_compute. Qed.

(** ** The steps of decimate_dataset *)

Section outcome.
Context {A B : Type}.

Lemma outcome_bind_Ok (m : outcome A) (f : A → outcome B) b :
  m ≫= f = Ok b ↔ ∃ a, m = Ok a ∧ f a = Ok b.
Proof.
  unfold mbind, outcome_bind. destruct m as [a | e].
  - split; [by exists a | by intros (? & [= <-] & ?)].
  - split; [done | by intros (? & [=] & _)].
Qed.
End outcome.

Lemma in_dims_true name (ds : Dataset) :
  in_dims name ds = true ↔ is_Some (ds !! name).
Proof. unfold in_dims. apply bool_decide_eq_true. Qed.

Lemma in_dims_Some name (ds : Dataset) a :
  ds !! name = Some a → in_dims name ds = true.
Proof. intros E. apply in_dims_true. by exists a. Qed.

Lemma getattr_Ok (ds : Dataset) name a :
  getattr ds name = Ok a ↔ ds !! name = Some a.
Proof. unfold getattr. destruct (ds !! name); naive_solver. Qed.

Lemma decimate_latlon_Ok (ds g : Dataset) :
  decimate_latlon ds = Ok g ↔
  ∃ lat lon, ds !! "lat" = Some lat ∧ ds !! "lon" = Some lon
    ∧ length (dims lat) = 1 ∧ length (dims lon) = 1
    ∧ g = <["lon" := slice 0 10 lon]> (<["lat" := slice 0 10 lat]> ds).
Proof.
  unfold decimate_latlon. rewrite outcome_bind_Ok. split.
  - intros (lat & Hlat%getattr_Ok & (lon & Hlon%getattr_Ok & H)%outcome_bind_Ok).
    exists lat, lon. destruct (bool_decide (length (dims lat) = 1)) eqn:E1;
      destruct (bool_decide (length (dims lon) = 1)) eqn:E2; try done.
    apply bool_decide_eq_true in E1, E2. by injection H as <-.
  - intros (lat & lon & Hlat & Hlon & E1 & E2 & ->).
    exists lat. split; [by apply getattr_Ok |].
    apply outcome_bind_Ok. exists lon. split; [by apply getattr_Ok |].
    by rewrite !bool_decide_eq_true_2.
Qed.

Lemma decimate_ij_Ok (ds g : Dataset) :
  decimate_ij ds = Ok g ↔
  ∃ i j, ds !! "i" = Some i ∧ ds !! "j" = Some j
    ∧ g = <["j" := slice (len j / 2) (len j / 2 + 10) j]>
            (<["i" := slice 0 10 i]> ds).
Proof.
  unfold decimate_ij. rewrite outcome_bind_Ok. split.
  - intros (i & Hi%getattr_Ok & (j & Hj%getattr_Ok & [= <-])%outcome_bind_Ok).
    by exists i, j.
  - intros (i & j & Hi & Hj & ->).
    exists i. split; [by apply getattr_Ok |].
    apply outcome_bind_Ok. exists j. split; [by apply getattr_Ok | done].
Qed.



Lemma sel_time_Ok (ds c : Dataset) span :
  sel_time ds span = Ok c ↔
  ∃ time lo hi, ds !! "time" = Some time
    ∧ parse_year span.1 = Some lo ∧ parse_year span.2 = Some hi
    ∧ c = <["time" := mkDataArray (dims time)
              (filter (λ t, (lo ≤ year_of t ≤ hi)%Z) (values time))]> ds.
Proof.
  unfold sel_time. rewrite outcome_bind_Ok. split.
  - intros (time & Htime%getattr_Ok & H). exists time.
    destruct (parse_year span.1) as [lo |], (parse_year span.2) as [hi |];
      try done.
    exists lo, hi. by injection H as <-.
  - intros (time & lo & hi & Htime & -> & -> & ->).
    exists time. split; [by apply getattr_Ok | done].
Qed.

(** The clip touches the time dimension and nothing else. *)
Lemma clip_time_Some (ds g r : Dataset) ts :
  clip_time ds g ts = Ok (Some r) →
  ∀ name, name ≠ "time" → r !! name = g !! name.
Proof.
  unfold clip_time. intros H name Hname.
  destruct (in_dims "time" ds), ts as [span |]; try by injection H as <-.
  apply outcome_bind_Ok in H
    as (c & (time & lo & hi & _ & _ & _ & ->)%sel_time_Ok & H).
  apply outcome_bind_Ok in H as (time' & _ & H).
  destruct (bool_decide (len time' = 0)); [done |]. injection H as <-.
  by rewrite lookup_insert_ne.
Qed.


Lemma clip_time_None (ds g : Dataset) ts :
  clip_time ds g ts = Ok None →
  in_dims "time" ds = true
  ∧ ∃ span c, ts = Some span ∧ sel_time g span = Ok c ∧ time_size c = Some 0.
Proof.
  unfold clip_time. destruct (in_dims "time" ds), ts as [span |]; try done.
  intros (c & Hc & (time & Ht%getattr_Ok & H)%outcome_bind_Ok)%outcome_bind_Ok.
  split; [done |]. exists span, c. split_and!; [done.. |].
  unfold time_size. rewrite Ht. cbn.
  destruct (bool_decide (len time = 0)) eqn:E; [| done].
  by apply bool_decide_eq_true in E as ->.
Qed.

Lemma slice_first a n :
  values (slice 0 n a) = take n (values a)
  ∧ len (slice 0 n a) ≤ n
  ∧ (n ≤ len a → len (slice 0 n a) = n).
Proof.
  unfold len, slice. cbn. rewrite Nat.sub_0_r, drop_0, length_take.
  split; [done | lia].
Qed.

Lemma decimate_dataset_latlon_step (ds : Dataset) ts lat lon :
  ds !! "lat" = Some lat → ds !! "lon" = Some lon →
  decimate_dataset ds ts = decimate_latlon ds ≫= λ g, clip_time ds g ts.
Proof.
  intros Hlat Hlon. unfold decimate_dataset.
  by rewrite (in_dims_Some _ _ _ Hlat), (in_dims_Some _ _ _ Hlon).
Qed.


(** The result of [decimate_dataset] is the cut of the grid, clipped. *)
Lemma decimate_dataset_Ok (ds : Dataset) ts o :
  decimate_dataset ds ts = Ok o →
  ∃ g, (decimate_latlon ds = Ok g ∨ decimate_ij ds = Ok g)
       ∧ clip_time ds g ts = Ok o.
Proof.
  unfold decimate_dataset. intros (g & Hg & Hclip)%outcome_bind_Ok.
  exists g. split; [| done].
  destruct (in_dims "lat" ds && in_dims "lon" ds); [by left |].
  destruct (in_dims "i" ds && in_dims "j" ds); [by right | done].
Qed.




Lemma slice_from a lo :
  values (slice lo (lo + 10) a) = take 10 (drop lo (values a))
  ∧ len (slice lo (lo + 10) a) = Nat.min 10 (len a - lo).
Proof.
  unfold len, slice. cbn.
  replace (lo + 10 - lo) with 10 by lia.
  by rewrite length_take, length_drop.
Qed.




(** [decimate_dataset] is [decimate_dataset_with] for the selection
    [interp] and the year filter [sel_time]. *)
Lemma decimate_dataset_with_model (ds : Dataset) ts :
  decimate_dataset_with (λ d targets, Ok (interp d targets)) sel_time ds ts
  = decimate_dataset ds ts.
Proof.
  unfold decimate_dataset_with, decimate_dataset, cut_grid, decimate_latlon,
    decimate_ij, clip_time.
  destruct (in_dims "lat" ds && in_dims "lon" ds); [done |].
  by destruct (in_dims "i" ds && in_dims "j" ds).
Qed.

(** C4. For a dataset that has a time dimension and a time span: when the
    cut of the grid returns a dataset, and the clip of that dataset to the
    span returns one whose time dimension is empty, [decimate_dataset]
    returns the no-result sentinel.  This holds whatever the library's
    [interp] and [sel] return and whenever they raise. *)
Theorem decimate_dataset_empty_clip_sentinel
    (xr_interp : Dataset → list (string * DataArray) → outcome Dataset)
    (xr_sel : Dataset → string * string → outcome Dataset)
    (ds g c : Dataset) span :
  in_dims "time" ds = true →
  cut_grid xr_interp ds = Ok g →
  xr_sel g span = Ok c → time_size c = Some 0 →
  decimate_dataset_with xr_interp xr_sel ds (Some span) = Ok None.
Proof.
  intros Hin Hg Hc Hz. unfold decimate_dataset_with.
  rewrite Hg, Hin. cbn [mbind outcome_bind]. rewrite Hc. cbn [mbind outcome_bind].
  unfold time_size in Hz. unfold getattr.
  destruct (c !! "time") as [time |]; [| done].
  injection Hz as Hz. cbn [mbind outcome_bind].
  by rewrite bool_decide_eq_true_2.
Qed.

Lemma decimate_dataset_empty_clip_sentinel_witness :
  ∃ g c,
    (in_dims "time" atmos_2000 = true
     ∧ cut_grid (λ d targets, Ok (interp d targets)) atmos_2000 = Ok g
     ∧ sel_time g ("1990", "1991") = Ok c ∧ time_size c = Some 0)
    ∧ decimate_dataset_with (λ d targets, Ok (interp d targets)) sel_time
        atmos_2000 (Some ("1990", "1991"))
      = Ok None.
Proof.
  eexists _, _.
  split;
    [split_and!;
       [reflexivity | vm_compute; reflexivity | vm_compute; reflexivity
       | reflexivity] |].
  eapply (decimate_dataset_empty_clip_sentinel
            (λ d targets, Ok (interp d targets)) sel_time atmos_2000);
    [reflexivity | vm_compute; reflexivity | vm_compute; reflexivity
    | reflexivity].
Defined.

(** C4, as first stated, fails on a dataset that has a time dimension and
    no supported grid: the clip to the span would leave nothing, and the
    call raises the unsupported-grid error before it comes to the clip. *)
Lemma decimate_dataset_empty_clip_unsupported :
  in_dims "time" time_only = true
  ∧ (∃ c, sel_time time_only ("1990", "1991") = Ok c ∧ time_size c = Some 0)
  ∧ decimate_dataset time_only (Some ("1990", "1991"))
    = Raise (ValueError "Cannot decimate this grid: too many dimensions")
  ∧ decimate_dataset time_only (Some ("1990", "1991")) ≠ Ok None.
Proof.
  split_and!; [done | | by vm_compute | by vm_compute].
  eexists. split; [by vm_compute | done].
Qed.

(** C5. A dataset that has not both of [lat] and [lon] and not both of [i]
    and [j] among its dimensions makes [decimate_dataset] raise the value
    error of an unsupported grid, whatever the time span. *)
Theorem decimate_dataset_unsupported_grid (ds : Dataset) ts :
  in_dims "lat" ds && in_dims "lon" ds = false →
  in_dims "i" ds && in_dims "j" ds = false →
  decimate_dataset ds ts
  = Raise (ValueError "Cannot decimate this grid: too many dimensions").
Proof. intros Hll Hij. unfold decimate_dataset. by rewrite Hll, Hij. Qed.

Lemma decimate_dataset_unsupported_grid_witness :
  (in_dims "lat" time_only && in_dims "lon" time_only = false
   ∧ in_dims "i" time_only && in_dims "j" time_only = false)
  ∧ decimate_dataset time_only (Some ("2000", "2025"))
    = Raise (ValueError "Cannot decimate this grid: too many dimensions").
Proof.
  split; [by split |].
  apply (decimate_dataset_unsupported_grid time_only (Some ("2000", "2025")));
    reflexivity.
Defined.

(** C8. A dataset that has [lat] and [lon] and also [i] and [j] among its
    dimensions goes through the branch of the latitude/longitude grid, and
    a dataset that comes back has the [i] and [j] of the source, not cut. *)
Theorem decimate_dataset_latlon_precedence (ds : Dataset) ts :
  in_dims "lat" ds && in_dims "lon" ds = true →
  in_dims "i" ds && in_dims "j" ds = true →
  decimate_dataset ds ts = (decimate_latlon ds ≫= λ g, clip_time ds g ts)
  ∧ ∀ r, decimate_dataset ds ts = Ok (Some r) →
         r !! "i" = ds !! "i" ∧ r !! "j" = ds !! "j".
Proof.
  intros Hll _. unfold decimate_dataset. rewrite Hll. split; [done |].
  intros r (g & Hg & Hr)%outcome_bind_Ok.
  apply decimate_latlon_Ok in Hg as (lat & lon & _ & _ & _ & _ & ->).
  pose proof (clip_time_Some _ _ _ _ Hr) as Hsame.
  split; rewrite Hsame by done; by rewrite !lookup_insert_ne.
Qed.

Lemma decimate_dataset_latlon_precedence_witness :
  (in_dims "lat" both_grids && in_dims "lon" both_grids = true
   ∧ in_dims "i" both_grids && in_dims "j" both_grids = true)
  ∧ decimate_dataset both_grids None
    = (decimate_latlon both_grids ≫= λ g, clip_time both_grids g None)
  ∧ ∀ r, decimate_dataset both_grids None = Ok (Some r) →
         r !! "i" = both_grids !! "i" ∧ r !! "j" = both_grids !! "j".
Proof.
  split; [by split |].
  apply (decimate_dataset_latlon_precedence both_grids None); reflexivity.
Defined.

(** On a dataset with both pairs the index dimensions keep their 30
    points, and latitude and longitude are cut to 10. *)
Example decimate_both_grids :
  ∃ r, decimate_dataset both_grids None = Ok (Some r)
    ∧ len <$> r !! "lat" = Some 10 ∧ len <$> r !! "lon" = Some 10
    ∧ len <$> r !! "i" = Some 30 ∧ len <$> r !! "j" = Some 30.
Proof. eexists. split; [by vm_compute |]. by vm_compute. Qed.

Lemma decimate_dataset_None (ds : Dataset) ts :
  decimate_dataset ds ts = Ok None →
  in_dims "time" ds = true ∧ ∃ span, ts = Some span.
Proof.
  intros (g & _ & Hclip)%decimate_dataset_Ok.
  apply clip_time_None in Hclip as (Hin & span & _ & -> & _).
  split; [done | by exists span].
Qed.

(** C9. Without a time span, or on a dataset without a time dimension,
    [decimate_dataset] does not return the no-result sentinel: it returns
    a dataset or it raises.  The sentinel takes a time span and a time
    dimension. *)
Theorem decimate_dataset_sentinel_needs_clip (ds : Dataset) ts :
  ts = None ∨ in_dims "time" ds = false →
  decimate_dataset ds ts ≠ Ok None
  ∧ ((∃ r, decimate_dataset ds ts = Ok (Some r))
     ∨ ∃ e, decimate_dataset ds ts = Raise e).
Proof.
  intros Hno.
  assert (decimate_dataset ds ts ≠ Ok None) as Hne.
  { intros [Hin [span ->]]%decimate_dataset_None.
    destruct Hno as [[=] | Hno]. congruence. }
  split; [done |].
  destruct (decimate_dataset ds ts) as [[r |] | e]; [by left; exists r | done |].
  right. by exists e.
Qed.

Lemma decimate_dataset_sentinel_needs_clip_witness :
  ((None : option (string * string)) = None ∨ in_dims "time" atmos_2000 = false)
  ∧ decimate_dataset atmos_2000 None ≠ Ok None
  ∧ ((∃ r, decimate_dataset atmos_2000 None = Ok (Some r))
     ∨ ∃ e, decimate_dataset atmos_2000 None = Raise e).
Proof.
  split; [by left |].
  apply (decimate_dataset_sentinel_needs_clip atmos_2000 None). left. reflexivity.
Defined.

(** The sentinel is returned only for a time span on a dataset with a time
    dimension, and then only when the clip leaves nothing. *)
Corollary decimate_dataset_sentinel_only_clipped (ds : Dataset) ts :
  decimate_dataset ds ts = Ok None →
  in_dims "time" ds = true
  ∧ ∃ span g c, ts = Some span ∧ sel_time g span = Ok c ∧ time_size c = Some 0.
Proof.
  intros (g & _ & Hclip)%decimate_dataset_Ok.
  apply clip_time_None in Hclip as (Hin & span & c & -> & Hc & Hz).
  split; [done | by exists span, g, c].
Qed.

(** ** Path strings *)

Lemma split_sep_nonempty s : split_sep s ≠ [].
Proof.
  destruct s as [| c s]; [done |]. cbn.
  destruct (bool_decide (c = "/"%char)); [done |].
  by destruct (split_sep s).
Qed.

Lemma split_sep_app s t :
  split_sep (s +:+ "/" +:+ t) = split_sep s ++ split_sep t.
Proof.
  induction s as [| c s IH]; [done |].
  change (String c s +:+ "/" +:+ t) with (String c (s +:+ "/" +:+ t)).
  cbn [split_sep]. rewrite IH.
  destruct (bool_decide (c = "/"%char)); [done |].
  pose proof (split_sep_nonempty s). by destruct (split_sep s).
Qed.

Lemma names_of_app s t : names_of (s +:+ "/" +:+ t) = names_of s ++ names_of t.
Proof. unfold names_of. by rewrite split_sep_app, filter_app. Qed.

Lemma endswith_sep_app s : endswith_sep s = true → ∃ s', s = s' +:+ "/".
Proof.
  induction s as [| c s IH]; [done |]. cbn.
  destruct s as [| c' s].
  - intros ->%bool_decide_eq_true. by exists "".
  - intros [s' ->]%IH. by exists (String c s').
Qed.

Lemma string_app_assoc (a b c : string) : (a +:+ b) +:+ c = a +:+ b +:+ c.
Proof.
  induction a as [| x a IH]; [done |].
  change (String x ((a +:+ b) +:+ c) = String x (a +:+ b +:+ c)). by rewrite IH.
Qed.

Lemma string_app_empty (a : string) : a +:+ "" = a.
Proof.
  induction a as [| x a IH]; [done |].
  change (String x (a +:+ "") = String x a). by rewrite IH.
Qed.

(** A component that does not start at the root adds its names to those of
    the path. *)
Lemma names_of_join_component path b :
  startswith_sep b = false →
  names_of (join_component path b) = names_of path ++ names_of b.
Proof.
  intros Hb. unfold join_component. rewrite Hb.
  destruct (bool_decide (path = "")) eqn:He.
  { by apply bool_decide_eq_true in He as ->. }
  cbn [orb]. destruct (endswith_sep path) eqn:Hs; [| apply names_of_app].
  apply endswith_sep_app in Hs as [s' ->].
  rewrite string_app_assoc, names_of_app.
  rewrite <- (string_app_empty (s' +:+ "/")), string_app_assoc, names_of_app.
  by rewrite app_nil_r.
Qed.

Lemma names_truediv path s :
  startswith_sep s = false → names (truediv path s) = names path ++ names_of s.
Proof. intros Hs. unfold truediv. by rewrite Hs. Qed.

(** ** Least and greatest label of an array *)

Lemma foldl_Zmin_least ts t :
  foldl Z.min t ts ∈ t :: ts ∧ ∀ x, x ∈ t :: ts → (foldl Z.min t ts ≤ x)%Z.
Proof.
  revert t. induction ts as [| a ts IH]; intros t; cbn [foldl].
  { split; [by left |]. intros x ->%list_elem_of_singleton. lia. }
  destruct (IH (Z.min t a)) as [Hin Hle].
  assert (foldl Z.min (Z.min t a) ts ≤ Z.min t a)%Z as Hm
    by (apply Hle; by left).
  split.
  - apply elem_of_cons in Hin as [-> | Hin]; [| by do 2 right].
    destruct (Z.min_spec t a) as [[_ ->] | [_ ->]]; [by left | right; by left].
  - intros x [-> | [-> | Hx]%elem_of_cons]%elem_of_cons; [lia.. |].
    apply Hle. by right.
Qed.

Lemma foldl_Zmax_greatest ts t :
  foldl Z.max t ts ∈ t :: ts ∧ ∀ x, x ∈ t :: ts → (x ≤ foldl Z.max t ts)%Z.
Proof.
  revert t. induction ts as [| a ts IH]; intros t; cbn [foldl].
  { split; [by left |]. intros x ->%list_elem_of_singleton. lia. }
  destruct (IH (Z.max t a)) as [Hin Hle].
  assert (Z.max t a ≤ foldl Z.max (Z.max t a) ts)%Z as Hm
    by (apply Hle; by left).
  split.
  - apply elem_of_cons in Hin as [-> | Hin]; [| by do 2 right].
    destruct (Z.max_spec t a) as [[_ ->] | [_ ->]]; [right; by left | by left].
  - intros x [-> | [-> | Hx]%elem_of_cons]%elem_of_cons; [lia.. |].
    apply Hle. by right.
Qed.

Lemma array_min_Ok (a : DataArray) lo :
  lo ∈ values a → (∀ t, t ∈ values a → (lo ≤ t)%Z) → array_min a = Ok lo.
Proof.
  unfold array_min. intros Hin Hle.
  destruct (values a) as [| t ts]; [by apply not_elem_of_nil in Hin |].
  destruct (foldl_Zmin_least ts t) as [Hm Hmin].
  f_equal. apply Z.le_antisymm; [by apply Hmin | by apply Hle].
Qed.

Lemma array_max_Ok (a : DataArray) hi :
  hi ∈ values a → (∀ t, t ∈ values a → (t ≤ hi)%Z) → array_max a = Ok hi.
Proof.
  unfold array_max. intros Hin Hle.
  destruct (values a) as [| t ts]; [by apply not_elem_of_nil in Hin |].
  destruct (foldl_Zmax_greatest ts t) as [Hm Hmax].
  f_equal. apply Z.le_antisymm; [by apply Hle | by apply Hmax].
Qed.

(** ** The names create_out_filename returns *)

Lemma getitem_Ok metadata item v :
  attrs metadata !! item = Some v → getitem metadata item = Ok v.
Proof. intros E. unfold getitem. by rewrite E. Qed.

(** Reads the columns of a schema off the hypotheses on the record. *)
Ltac read_items :=
  cbn [mapM];
  repeat match goal with
         | H : attrs ?m !! ?item = Some _ |- context [getitem ?m ?item] =>
             rewrite (getitem_Ok _ _ _ H)
         end;
  reflexivity.

Lemma layout_Ok metadata path_items filename_paths components directory
    version prefix_items :
  mapM (getitem metadata) path_items = Ok components →
  os_path_join components = Ok directory →
  attrs metadata !! "version" = Some version →
  mapM (getitem metadata) filename_paths = Ok prefix_items →
  layout metadata path_items filename_paths
  = Ok (truediv (Path directory) ("v" +:+ version), str_join "_" prefix_items).
Proof.
  intros Hc Hd Hv Hp. unfold layout.
  by rewrite Hc, (getitem_Ok _ _ _ Hv), Hp; cbn; rewrite Hd.
Qed.

(** C6. For a record of the CMIP schema (its project is not ["obs4MIPs"])
    with variable ["tas"], table ["Amon"], source ["ACCESS-ESM1-5"],
    experiment ["historical"], member ["r1i1p1f1"], grid label ["gn"] and
    version ["20191115"], and a dataset whose time coordinate runs from
    January to December 2000, [create_out_filename] returns a path whose
    names are those of the MIP era, the activity and the institution, then
    source, experiment, member, table, variable, grid label, the version
    directory [v20191115] and the file name
    [tas_Amon_ACCESS-ESM1-5_historical_r1i1p1f1_gn_200001-200012.nc]; the
    months in the name are the least and the greatest label of the time
    coordinate of the dataset. *)
Theorem create_out_filename_cmip metadata (ds : Dataset) project mip_era
    activity institution time :
  attrs metadata !! "project" = Some project → project ≠ "obs4MIPs" →
  attrs metadata !! "mip_era" = Some mip_era →
  attrs metadata !! "activity_drs" = Some activity →
  attrs metadata !! "institution_id" = Some institution →
  attrs metadata !! "source_id" = Some "ACCESS-ESM1-5" →
  attrs metadata !! "experiment_id" = Some "historical" →
  attrs metadata !! "member_id" = Some "r1i1p1f1" →
  attrs metadata !! "table_id" = Some "Amon" →
  attrs metadata !! "variable_id" = Some "tas" →
  attrs metadata !! "grid_label" = Some "gn" →
  attrs metadata !! "version" = Some "20191115" →
  ds !! "time" = Some time →
  month_label 2000 1 ∈ values time → month_label 2000 12 ∈ values time →
  (∀ t, t ∈ values time → (month_label 2000 1 ≤ t ≤ month_label 2000 12)%Z) →
  ∃ path front,
    create_out_filename metadata ds = Ok path
    ∧ os_path_join [mip_era; activity; institution] = Ok front
    ∧ names path
      = names (Path front)
        ++ [ "ACCESS-ESM1-5"; "historical"; "r1i1p1f1"; "Amon"; "tas"; "gn";
             "v20191115";
             "tas_Amon_ACCESS-ESM1-5_historical_r1i1p1f1_gn_200001-200012.nc" ].
Proof.
  intros Hproject Hcmip Hera Hact Hinst Hsrc Hexp Hmem Htab Hvar Hgrid Hver
    Htime Hjan Hdec Hspan.
  assert (mapM (getitem metadata) cmip6_path_items
          = Ok [ mip_era; activity; institution; "ACCESS-ESM1-5"; "historical";
                 "r1i1p1f1"; "Amon"; "tas"; "gn" ]) as Hitems.
  { unfold cmip6_path_items. read_items. }
  assert (mapM (getitem metadata) cmip6_filename_paths
          = Ok [ "tas"; "Amon"; "ACCESS-ESM1-5"; "historical"; "r1i1p1f1";
                 "gn" ]) as Hprefix.
  { unfold cmip6_filename_paths. read_items. }
  eexists _, _. split_and!; [| reflexivity |].
  - unfold create_out_filename, getfield. rewrite Hproject.
    cbn [mbind outcome_bind].
    rewrite bool_decide_eq_false_2 by done.
    rewrite (layout_Ok _ _ _ _ _ _ _ Hitems eq_refl Hver Hprefix).
    cbn [mbind outcome_bind]. rewrite (in_dims_Some _ _ _ Htime).
    rewrite (proj2 (getattr_Ok _ _ _) Htime). cbn [mbind outcome_bind].
    rewrite (array_min_Ok time (month_label 2000 1)), (array_max_Ok time (month_label 2000 12));
      [| done | intros t Ht; apply (Hspan t Ht) | done
       | intros t Ht; apply (Hspan t Ht)].
    cbn [mbind outcome_bind]. reflexivity.
  - rewrite names_truediv by done. rewrite names_truediv by done.
    cbn [Path names foldl].
    rewrite !names_of_join_component by done.
    rewrite <- !app_assoc. reflexivity.
Qed.

Lemma months_2000_span t :
  t ∈ values months_2000 → (month_label 2000 1 ≤ t ≤ month_label 2000 12)%Z.
Proof.
  revert t. apply Forall_forall. cbn.
  repeat (constructor; [unfold month_label; lia |]). constructor.
Qed.

Lemma create_out_filename_cmip_witness :
  (attrs tas_record !! "project" = Some "CMIP6" ∧ "CMIP6" ≠ "obs4MIPs"
   ∧ attrs tas_record !! "source_id" = Some "ACCESS-ESM1-5"
   ∧ attrs tas_record !! "version" = Some "20191115"
   ∧ atmos_2000 !! "time" = Some months_2000)
  ∧ ∃ path front,
      create_out_filename tas_record atmos_2000 = Ok path
      ∧ os_path_join ["CMIP6"; "CMIP"; "CSIRO"] = Ok front
      ∧ names path
        = names (Path front)
          ++ [ "ACCESS-ESM1-5"; "historical"; "r1i1p1f1"; "Amon"; "tas"; "gn";
               "v20191115";
               "tas_Amon_ACCESS-ESM1-5_historical_r1i1p1f1_gn_200001-200012.nc" ].
Proof.
  split; [by split_and! |].
  apply (create_out_filename_cmip tas_record atmos_2000 "CMIP6" "CMIP6" "CMIP"
           "CSIRO" months_2000);
    try reflexivity; try done.
  - vm_compute. by left.
  - vm_compute. do 11 right. by left.
  - exact months_2000_span.
Defined.

(** The whole path of the sample record, the three leading names
    included. *)
Example create_out_filename_tas :
  create_out_filename tas_record atmos_2000
  = Ok (mkPath ""
          [ "CMIP6"; "CMIP"; "CSIRO"; "ACCESS-ESM1-5"; "historical";
            "r1i1p1f1"; "Amon"; "tas"; "gn"; "v20191115";
            "tas_Amon_ACCESS-ESM1-5_historical_r1i1p1f1_gn_200001-200012.nc" ]).
Proof. by vm_compute. Qed.

(** C7. For a record of the obs4MIPs schema with variable ["ta"], source
    ["AIRS-2-1"], grid label ["gn"], institution ["NASA-JPL"], activity
    ["obs4MIPs"] and version ["1-1"], and a dataset without a time
    dimension, [create_out_filename] returns the path of the names
    activity, institution, source, variable, grid label and [v1-1], with
    the file name [ta_AIRS-2-1_gn.nc], which has no time suffix. *)
Theorem create_out_filename_obs4mips metadata (ds : Dataset) :
  attrs metadata !! "project" = Some "obs4MIPs" →
  attrs metadata !! "variable_id" = Some "ta" →
  attrs metadata !! "source_id" = Some "AIRS-2-1" →
  attrs metadata !! "grid_label" = Some "gn" →
  attrs metadata !! "institution_id" = Some "NASA-JPL" →
  attrs metadata !! "activity_id" = Some "obs4MIPs" →
  attrs metadata !! "version" = Some "1-1" →
  in_dims "time" ds = false →
  create_out_filename metadata ds
  = Ok (mkPath ""
          [ "obs4MIPs"; "NASA-JPL"; "AIRS-2-1"; "ta"; "gn"; "v1-1";
            "ta_AIRS-2-1_gn.nc" ]).
Proof.
  intros Hproject Hvar Hsrc Hgrid Hinst Hact Hver Htime.
  assert (mapM (getitem metadata) obs4mips_path_items
          = Ok ["obs4MIPs"; "NASA-JPL"; "AIRS-2-1"; "ta"; "gn"]) as Hitems.
  { unfold obs4mips_path_items. read_items. }
  assert (mapM (getitem metadata) obs4mips_filename_paths
          = Ok ["ta"; "AIRS-2-1"; "gn"]) as Hprefix.
  { unfold obs4mips_filename_paths. read_items. }
  unfold create_out_filename, getfield. rewrite Hproject.
  cbn [mbind outcome_bind]. rewrite bool_decide_eq_true_2 by done.
  rewrite (layout_Ok _ _ _ _ _ _ _ Hitems eq_refl Hver Hprefix).
  cbn [mbind outcome_bind]. rewrite Htime. reflexivity.
Qed.

Lemma create_out_filename_obs4mips_witness :
  (attrs airs_record !! "project" = Some "obs4MIPs"
   ∧ attrs airs_record !! "version" = Some "1-1"
   ∧ in_dims "time" grid_without_time = false)
  ∧ create_out_filename airs_record grid_without_time
    = Ok (mkPath ""
            [ "obs4MIPs"; "NASA-JPL"; "AIRS-2-1"; "ta"; "gn"; "v1-1";
              "ta_AIRS-2-1_gn.nc" ]).
Proof.
  split; [by split_and! |].
  apply (create_out_filename_obs4mips airs_record grid_without_time);
    reflexivity.
Defined.

(** ** More on deduplicate_datasets *)

Section inversion.
Context {A B : Type}.

Lemma bind_Ok_inv (m : M A) (f : A → M B) h b h' :
  (m ≫= f) h = Ok (b, h') → ∃ a h1, m h = Ok (a, h1) ∧ f a h1 = Ok (b, h').
Proof.
  unfold mbind, M_bind. destruct (m h) as [[a h1] | e]; [| done].
  intros E. by exists a, h1.
Qed.
End inversion.

Lemma load_inv l h s h' : load l h = Ok (s, h') → h' = h ∧ h !! l = Some s.
Proof. unfold load. destruct (h !! l); naive_solver. Qed.

Lemma store_length l f h u h' : store l f h = Ok (u, h') → length h' = length h.
Proof.
  unfold store. destruct (h !! l); [| done].
  intros [= _ <-]. apply length_insert.
Qed.

Lemma column_heap f df h col h' : column f df h = Ok (col, h') → h' = h.
Proof.
  unfold column. revert col h'. induction df as [| l df IH]; intros col h'.
  { by intros [= _ <-]. }
  cbn [mapM]. intros (x & h1 & Hx & Hrest)%bind_Ok_inv.
  apply bind_Ok_inv in Hx as (s & h2 & [-> _]%load_inv & [= _ <-]).
  apply bind_Ok_inv in Hrest as (ys & h3 & ->%IH & [= _ <-]). done.
Qed.

(** A run of [_deduplicate_group] adds one object to the store, which is
    the one it returns. *)
Lemma _deduplicate_group_fresh group h r h' :
  _deduplicate_group group h = Ok (r, h') →
  r = length h ∧ length h' = S (length h).
Proof.
  unfold _deduplicate_group.
  intros (first & h1 & Hfirst & H)%bind_Ok_inv.
  apply bind_Ok_inv in Hfirst as (l0 & h0 & Hl0 & Hcopy).
  assert (h0 = h) as ->.
  { unfold iloc in Hl0. destruct (group !! 0); [| done]. by injection Hl0. }
  unfold copy in Hcopy.
  apply bind_Ok_inv in Hcopy as (s & h2 & [-> _]%load_inv & [= <- <-]).
  apply bind_Ok_inv in H as (starts & h3 & ->%column_heap & H).
  apply bind_Ok_inv in H as (lo & h4 & Hlo & H).
  assert (h4 = h ++ [s]) as ->.
  { unfold Series_min in Hlo. destruct starts; [done |]. by injection Hlo. }
  apply bind_Ok_inv in H as (u & h5 & Hlen1%store_length & H).
  apply bind_Ok_inv in H as (ends & h6 & ->%column_heap & H).
  apply bind_Ok_inv in H as (hi & h7 & Hhi & H).
  assert (h7 = h5) as ->.
  { unfold Series_max in Hhi. destruct ends; [done |]. by injection Hhi. }
  apply bind_Ok_inv in H as (u' & h8 & Hlen2%store_length & [= <- <-]).
  split; [done |]. rewrite Hlen2, Hlen1, length_app. cbn. lia.
Qed.

Lemma apply_reset_index_fresh groups h result h' :
  apply_reset_index _deduplicate_group groups h = Ok (result, h') →
  Forall (λ l, length h ≤ l < length h') result ∧ length h ≤ length h'.
Proof.
  unfold apply_reset_index. revert h result h'.
  induction groups as [| [k g] groups IH]; intros h result h'.
  { intros [= <- <-]. split; [constructor | done]. }
  cbn [mapM fst snd]. intros (l & h1 & Hl & Hrest)%bind_Ok_inv.
  apply bind_Ok_inv in Hl as (r & h2 & Hg & Hl).
  apply _deduplicate_group_fresh in Hg as [-> Hlen].
  apply bind_Ok_inv in Hl as (s & h3 & [-> _]%load_inv & [= <- <-]).
  apply bind_Ok_inv in Hrest as (ls & h4 & [Hls Hle]%IH & [= <- <-]).
  rewrite length_app in *. cbn in *. split; [| lia].
  constructor; [lia |]. eapply Forall_impl; [exact Hls |]. cbn. lia.
Qed.

(** X1. The rows of the table [deduplicate_datasets] returns are objects
    made by the call: none of them was in the store before. *)
Theorem deduplicate_datasets_fresh_rows datasets h result h' :
  deduplicate_datasets datasets h = Ok (result, h') →
  Forall (λ l, length h ≤ l < length h') result.
Proof.
  unfold deduplicate_datasets. intros (groups & h1 & Hg & Hrun)%bind_Ok_inv.
  assert (h1 = h) as ->.
  { unfold groupby_key in Hg.
    by apply bind_Ok_inv in Hg as (keys & h2 & ->%column_heap & [= _ <-]). }
  by apply apply_reset_index_fresh in Hrun as [? _].
Qed.

Lemma deduplicate_datasets_fresh_rows_witness :
  ∃ h', deduplicate_datasets sample_table sample_store = Ok ([4; 6], h')
    ∧ Forall (λ l, length sample_store ≤ l < length h') [4; 6].
Proof.
  eexists. split; [vm_compute; reflexivity |].
  apply (deduplicate_datasets_fresh_rows sample_table sample_store).
  vm_compute. reflexivity.
Defined.

(** *** Tables without repeated keys *)

Lemma key_inj_on rows (x y : Series) :
  NoDup (key <$> rows) → x ∈ rows → y ∈ rows → key x = key y → x = y.
Proof.
  induction rows as [| a rows IH]; [by intros _ ?%not_elem_of_nil |].
  cbn. intros [Ha Hnd]%NoDup_cons [-> | Hx]%elem_of_cons [-> | Hy]%elem_of_cons E;
    [done | | | by apply IH].
  - destruct Ha. rewrite E. by apply list_elem_of_fmap_2.
  - destruct Ha. rewrite <- E. by apply list_elem_of_fmap_2.
Qed.

Lemma filter_key_unique rows (s : Series) :
  NoDup (key <$> rows) → s ∈ rows → filter (λ r, key r = key s) rows = [s].
Proof.
  intros Hnd Hs.
  assert (NoDup (filter (λ r, key r = key s) rows)) as Hf
    by (apply NoDup_filter; by eapply NoDup_fmap_1).
  assert (∀ x, x ∈ filter (λ r, key r = key s) rows ↔ x ∈ [s]) as Hiff.
  { intros x. rewrite list_elem_of_filter, list_elem_of_singleton. split.
    - intros [E Hx]. by eapply key_inj_on.
    - by intros ->. }
  destruct (filter (λ r, key r = key s) rows) as [| a [| b l]].
  - specialize (Hiff s). rewrite list_elem_of_singleton in Hiff.
    destruct (not_elem_of_nil s). by apply Hiff.
  - f_equal. apply list_elem_of_singleton, Hiff. by left.
  - apply NoDup_cons in Hf as [Hab _].
    assert (a = s) as -> by (apply list_elem_of_singleton, Hiff; by left).
    assert (b = s) as -> by (apply list_elem_of_singleton, Hiff; right; by left).
    destruct Hab. by left.
Qed.

Lemma represents_unique rows k s :
  NoDup (key <$> rows) → represents rows k s → s ∈ rows ∧ key s = k.
Proof.
  intros Hnd (s' & Hw & ->).
  destruct (filter (λ r, key r = k) rows) as [| first rest] eqn:Hg; [done |].
  assert (first ∈ filter (λ r, key r = k) rows) as [Hk Hin]%list_elem_of_filter
    by (rewrite Hg; by left).
  subst k. rewrite (filter_key_unique _ _ Hnd Hin) in Hg.
  injection Hg as <-. injection Hw as <-.
  by destruct first.
Qed.

Lemma labels_sorted (keys : list string) :
  Sorted String.le (merge_sort String.le (remove_dups keys)).
Proof. apply (Sorted_merge_sort String.le). Qed.

Lemma represents_keys rows labels out :
  Forall2 (represents rows) labels out → key <$> out = labels.
Proof.
  induction 1 as [| k s ks out Hs _ IH]; [done |].
  cbn. f_equal; [| done]. by apply represents_spec in Hs as [? _].
Qed.

(** X2. On a table without repeated keys deduplication changes no row: the
    rows that come back are the rows of the input, put in ascending order
    of their keys. *)
Theorem deduplicate_datasets_distinct_keys h datasets rows :
  read_table h datasets = Some rows → NoDup (key <$> rows) →
  ∃ result h' out,
    deduplicate_datasets datasets h = Ok (result, h')
    ∧ read_table h' result = Some out
    ∧ out ≡ₚ rows
    ∧ Sorted String.le (key <$> out).
Proof.
  intros Hread Hnd.
  destruct (deduplicate_datasets_Ok _ _ _ Hread)
    as (result & ext & out & Hrun & Hout & Hrep).
  exists result, (h ++ ext), out. split_and!; [done.. | |].
  - pose proof (represents_keys _ _ _ Hrep) as Hkeys.
    assert (∀ s, s ∈ out → s ∈ rows) as Hsub.
    { intros s [i Hi]%list_elem_of_lookup.
      destruct (Forall2_lookup_r _ _ _ _ _ Hrep Hi) as (k & _ & Hs).
      by apply (represents_unique _ _ _ Hnd) in Hs as [? _]. }
    apply NoDup_Permutation.
    + apply (NoDup_fmap_1 key). rewrite Hkeys, merge_sort_Permutation.
      apply NoDup_remove_dups.
    + by eapply NoDup_fmap_1.
    + intros x. split; [apply Hsub |]. intros Hx.
      assert (key x ∈ key <$> out) as (s & Hk & Hs)%list_elem_of_fmap.
      { rewrite Hkeys, merge_sort_Permutation, elem_of_remove_dups.
        by apply list_elem_of_fmap_2. }
      by rewrite (key_inj_on rows x s Hnd Hx (Hsub _ Hs) Hk).
  - rewrite (represents_keys _ _ _ Hrep). apply labels_sorted.
Qed.

Lemma deduplicate_datasets_distinct_keys_witness :
  (read_table sample_store [1; 2] = Some (drop 1 sample_store)
   ∧ NoDup (key <$> drop 1 sample_store))
  ∧ ∃ result h' out,
      deduplicate_datasets [1; 2] sample_store = Ok (result, h')
      ∧ read_table h' result = Some out
      ∧ out ≡ₚ drop 1 sample_store
      ∧ Sorted String.le (key <$> out).
Proof.
  assert (NoDup (key <$> drop 1 sample_store)) as Hnd
    by (apply (bool_decide_unpack _); by vm_compute).
  split; [by split |].
  apply (deduplicate_datasets_distinct_keys sample_store [1; 2]);
    [reflexivity | exact Hnd].
Defined.

Lemma labels_unique (keys keys' : list string) :
  (∀ k, k ∈ keys ↔ k ∈ keys') →
  merge_sort String.le (remove_dups keys)
  = merge_sort String.le (remove_dups keys').
Proof.
  intros Hiff. apply (Sorted_unique String.le); [apply labels_sorted.. |].
  rewrite !merge_sort_Permutation.
  apply NoDup_Permutation; [apply NoDup_remove_dups.. |].
  intros k. by rewrite !elem_of_remove_dups.
Qed.

Lemma labels_fixed (keys : list string) :
  NoDup keys → Sorted String.le keys →
  merge_sort String.le (remove_dups keys) = keys.
Proof.
  intros Hnd Hs. apply (Sorted_unique String.le); [apply labels_sorted | done |].
  rewrite merge_sort_Permutation.
  apply NoDup_Permutation; [apply NoDup_remove_dups | done |].
  intros k. apply elem_of_remove_dups.
Qed.

(** X3. Deduplication is idempotent: run again on the table it returned,
    it returns the same rows in the same order. *)
Theorem deduplicate_datasets_idempotent h datasets rows :
  read_table h datasets = Some rows →
  ∃ result h' out result2 h'',
    deduplicate_datasets datasets h = Ok (result, h')
    ∧ read_table h' result = Some out
    ∧ deduplicate_datasets result h' = Ok (result2, h'')
    ∧ read_table h'' result2 = Some out.
Proof.
  intros Hread.
  destruct (deduplicate_datasets_Ok _ _ _ Hread)
    as (result & ext & out & Hrun & Hout & Hrep).
  destruct (deduplicate_datasets_Ok _ _ _ Hout)
    as (result2 & ext2 & out2 & Hrun2 & Hout2 & Hrep2).
  exists result, (h ++ ext), out, result2, ((h ++ ext) ++ ext2).
  split_and!; [done.. |].
  pose proof (represents_keys _ _ _ Hrep) as Hkeys.
  assert (NoDup (key <$> out)) as Hnd
    by (rewrite Hkeys, merge_sort_Permutation; apply NoDup_remove_dups).
  rewrite labels_fixed in Hrep2;
    [| done | rewrite Hkeys; apply labels_sorted].
  rewrite Hout2. f_equal. apply list_eq_Forall2.
  rewrite Forall2_fmap_l in Hrep2.
  apply Forall2_same_length_lookup. split.
  { symmetry. exact (Forall2_length _ _ _ Hrep2). }
  intros i s2 s Hs2 Hs.
  pose proof (Forall2_lookup_lr _ _ _ _ _ _ Hrep2 Hs Hs2) as Hr. cbn in Hr.
  apply (represents_unique _ _ _ Hnd) in Hr as [Hin Hk].
  apply (key_inj_on out); [done | done | | done].
  apply list_elem_of_lookup. by exists i.
Qed.

Lemma deduplicate_datasets_idempotent_witness :
  read_table sample_store sample_table = Some sample_store
  ∧ ∃ result h' out result2 h'',
      deduplicate_datasets sample_table sample_store = Ok (result, h')
      ∧ read_table h' result = Some out
      ∧ deduplicate_datasets result h' = Ok (result2, h'')
      ∧ read_table h'' result2 = Some out.
Proof.
  split; [reflexivity |].
  apply (deduplicate_datasets_idempotent sample_store sample_table sample_store).
  reflexivity.
Defined.

(** *** The order of the rows *)

Lemma is_least_unique m m' col col' :
  col ≡ₚ col' → is_least m col → is_least m' col' → m = m'.
Proof.
  intros Hp [Hin Hle] [Hin' Hle'].
  apply (anti_symm String.le).
  - apply Hle. by rewrite Hp.
  - apply Hle'. by rewrite <- Hp.
Qed.

Lemma is_greatest_unique m m' col col' :
  col ≡ₚ col' → is_greatest m col → is_greatest m' col' → m = m'.
Proof.
  intros Hp [Hin Hle] [Hin' Hle'].
  apply (anti_symm String.le).
  - apply Hle'. by rewrite <- Hp.
  - apply Hle. by rewrite Hp.
Qed.

Lemma represents_span_Permutation rows rows' k s s' :
  rows ≡ₚ rows' → represents rows k s → represents rows' k s' →
  time_start s = time_start s' ∧ time_end s = time_end s'.
Proof.
  intros Hp
    (_ & first & rest & Hg & _ & _ & _ & Hlo & Hhi)%represents_spec
    (_ & first' & rest' & Hg' & _ & _ & _ & Hlo' & Hhi')%represents_spec.
  assert (first :: rest ≡ₚ first' :: rest') as Hgp
    by (by rewrite <- Hg, <- Hg', Hp).
  split.
  - eapply is_least_unique; [| exact Hlo | exact Hlo']. by rewrite Hgp.
  - eapply is_greatest_unique; [| exact Hhi | exact Hhi']. by rewrite Hgp.
Qed.

(** X4. The keys and the time spans that deduplication returns do not
    depend on the order of the input rows: two tables with the same rows
    in different orders give the same keys, starts and ends, row for row.
    (The other columns are those of whichever row of a key comes first.) *)
Theorem deduplicate_datasets_order_insensitive h datasets datasets' rows rows' :
  read_table h datasets = Some rows → read_table h datasets' = Some rows' →
  rows ≡ₚ rows' →
  ∃ result h1 out result' h2 out',
    deduplicate_datasets datasets h = Ok (result, h1)
    ∧ read_table h1 result = Some out
    ∧ deduplicate_datasets datasets' h = Ok (result', h2)
    ∧ read_table h2 result' = Some out'
    ∧ key <$> out = key <$> out'
    ∧ time_start <$> out = time_start <$> out'
    ∧ time_end <$> out = time_end <$> out'.
Proof.
  intros Hread Hread' Hp.
  destruct (deduplicate_datasets_Ok _ _ _ Hread)
    as (result & ext & out & Hrun & Hout & Hrep).
  destruct (deduplicate_datasets_Ok _ _ _ Hread')
    as (result' & ext' & out' & Hrun' & Hout' & Hrep').
  exists result, (h ++ ext), out, result', (h ++ ext'), out'.
  split_and!; [done.. | | |].
  all: rewrite <- (labels_unique (key <$> rows) (key <$> rows')) in Hrep'
    by (intros k; by rewrite Hp).
  - by rewrite (represents_keys _ _ _ Hrep), (represents_keys _ _ _ Hrep').
  - apply list_eq_Forall2, Forall2_fmap, Forall2_same_length_lookup. split.
    { rewrite <- (Forall2_length _ _ _ Hrep). exact (Forall2_length _ _ _ Hrep'). }
    intros i s s' Hs Hs'.
    destruct (Forall2_lookup_r _ _ _ _ _ Hrep Hs) as (k & Hk & Hr).
    destruct (Forall2_lookup_r _ _ _ _ _ Hrep' Hs') as (k' & Hk' & Hr').
    rewrite Hk in Hk'. injection Hk' as <-.
    by destruct (represents_span_Permutation _ _ _ _ _ Hp Hr Hr').
  - apply list_eq_Forall2, Forall2_fmap, Forall2_same_length_lookup. split.
    { rewrite <- (Forall2_length _ _ _ Hrep). exact (Forall2_length _ _ _ Hrep'). }
    intros i s s' Hs Hs'.
    destruct (Forall2_lookup_r _ _ _ _ _ Hrep Hs) as (k & Hk & Hr).
    destruct (Forall2_lookup_r _ _ _ _ _ Hrep' Hs') as (k' & Hk' & Hr').
    rewrite Hk in Hk'. injection Hk' as <-.
    by destruct (represents_span_Permutation _ _ _ _ _ Hp Hr Hr').
Qed.

Lemma deduplicate_datasets_order_insensitive_witness :
  (read_table sample_store sample_table = Some sample_store
   ∧ read_table sample_store [2; 1; 0] = Some (reverse sample_store)
   ∧ sample_store ≡ₚ reverse sample_store)
  ∧ ∃ result h1 out result' h2 out',
      deduplicate_datasets sample_table sample_store = Ok (result, h1)
      ∧ read_table h1 result = Some out
      ∧ deduplicate_datasets [2; 1; 0] sample_store = Ok (result', h2)
      ∧ read_table h2 result' = Some out'
      ∧ key <$> out = key <$> out'
      ∧ time_start <$> out = time_start <$> out'
      ∧ time_end <$> out = time_end <$> out'.
Proof.
  assert (sample_store ≡ₚ reverse sample_store) as Hp
    by (symmetry; apply reverse_Permutation).
  split; [by split_and! |].
  apply (deduplicate_datasets_order_insensitive sample_store sample_table
           [2; 1; 0] sample_store (reverse sample_store));
    [reflexivity | reflexivity | exact Hp].
Defined.

(** X19. The table that deduplication returns is in ascending order of
    its keys and has at most as many rows as the input. *)
Theorem deduplicate_datasets_sorted h datasets rows :
  read_table h datasets = Some rows →
  ∃ result h' out,
    deduplicate_datasets datasets h = Ok (result, h')
    ∧ read_table h' result = Some out
    ∧ Sorted String.le (key <$> out)
    ∧ length out ≤ length rows.
Proof.
  intros Hread.
  destruct (deduplicate_datasets_Ok _ _ _ Hread)
    as (result & ext & out & Hrun & Hout & Hrep).
  exists result, (h ++ ext), out. split_and!; [done.. | |].
  - rewrite (represents_keys _ _ _ Hrep). apply labels_sorted.
  - rewrite <- (length_fmap key out), (represents_keys _ _ _ Hrep).
    rewrite merge_sort_Permutation, <- (length_fmap key rows).
    apply submseteq_length, NoDup_submseteq; [apply NoDup_remove_dups |].
    intros k. by rewrite elem_of_remove_dups.
Qed.

Lemma deduplicate_datasets_sorted_witness :
  read_table sample_store sample_table = Some sample_store
  ∧ ∃ result h' out,
      deduplicate_datasets sample_table sample_store = Ok (result, h')
      ∧ read_table h' result = Some out
      ∧ Sorted String.le (key <$> out)
      ∧ length out ≤ length sample_store.
Proof.
  split; [reflexivity |].
  apply (deduplicate_datasets_sorted sample_store sample_table sample_store).
  reflexivity.
Defined.

(** X20. No requested period is lost: for every row of the input, the
    table that comes back has a row of the same key whose time span
    covers the span of that row, starting no later and ending no
    sooner. *)
Theorem deduplicate_datasets_covers h datasets rows :
  read_table h datasets = Some rows →
  ∃ result h' out,
    deduplicate_datasets datasets h = Ok (result, h')
    ∧ read_table h' result = Some out
    ∧ ∀ row, row ∈ rows →
        ∃ r, r ∈ out ∧ key r = key row
          ∧ String.le (time_start r) (time_start row)
          ∧ String.le (time_end row) (time_end r).
Proof.
  intros Hread.
  destruct (deduplicate_datasets_Ok _ _ _ Hread)
    as (result & ext & out & Hrun & Hout & Hrep).
  exists result, (h ++ ext), out. split_and!; [done.. |].
  intros row Hrow.
  assert (key row ∈ merge_sort String.le (remove_dups (key <$> rows)))
    as [i Hi]%list_elem_of_lookup.
  { rewrite merge_sort_Permutation, elem_of_remove_dups.
    by apply list_elem_of_fmap_2. }
  destruct (Forall2_lookup_l _ _ _ _ _ Hrep Hi) as (r & Hr & Hs).
  apply represents_spec in Hs
    as (Hk & first & rest & Hg & _ & _ & _ & [_ Hlo] & [_ Hhi]).
  assert (row ∈ first :: rest) as Hin
    by (rewrite <- Hg; by apply list_elem_of_filter).
  exists r. split_and!; [apply list_elem_of_lookup; by exists i | done | |].
  - apply Hlo. by apply (list_elem_of_fmap_2 time_start).
  - apply Hhi. by apply (list_elem_of_fmap_2 time_end).
Qed.

Lemma deduplicate_datasets_covers_witness :
  read_table sample_store sample_table = Some sample_store
  ∧ ∃ result h' out,
      deduplicate_datasets sample_table sample_store = Ok (result, h')
      ∧ read_table h' result = Some out
      ∧ ∀ row, row ∈ sample_store →
          ∃ r, r ∈ out ∧ key r = key row
            ∧ String.le (time_start r) (time_start row)
            ∧ String.le (time_end row) (time_end r).
Proof.
  split; [reflexivity |].
  apply (deduplicate_datasets_covers sample_store sample_table sample_store).
  reflexivity.
Defined.

(** ** More on decimate_dataset *)

(** What a successful call went through: one of the two branches, then
    the clip. *)
Lemma decimate_dataset_inv (ds : Dataset) ts o :
  decimate_dataset ds ts = Ok o →
  ∃ g, clip_time ds g ts = Ok o
    ∧ ((in_dims "lat" ds && in_dims "lon" ds = true
        ∧ ∃ lat lon, ds !! "lat" = Some lat ∧ ds !! "lon" = Some lon
            ∧ length (dims lat) = 1 ∧ length (dims lon) = 1
            ∧ g = <["lon" := slice 0 10 lon]> (<["lat" := slice 0 10 lat]> ds))
       ∨ (in_dims "lat" ds && in_dims "lon" ds = false
          ∧ ∃ i j, ds !! "i" = Some i ∧ ds !! "j" = Some j
              ∧ g = <["j" := slice (len j / 2) (len j / 2 + 10) j]>
                      (<["i" := slice 0 10 i]> ds))).
Proof.
  unfold decimate_dataset. intros (g & Hg & Hclip)%outcome_bind_Ok.
  exists g. split; [done |].
  destruct (in_dims "lat" ds && in_dims "lon" ds).
  - left. split; [done |]. by apply decimate_latlon_Ok.
  - right. split; [done |].
    destruct (in_dims "i" ds && in_dims "j" ds); [| done].
    by apply decimate_ij_Ok.
Qed.


(** X5. With [lat] and [lon] among the dimensions, a latitude or longitude
    coordinate that is not one-dimensional makes [decimate_dataset] fail
    on its assertion, whatever the time span and whatever other
    dimensions there are. *)
Theorem decimate_dataset_assertion (ds : Dataset) ts lat lon :
  ds !! "lat" = Some lat → ds !! "lon" = Some lon →
  length (dims lat) ≠ 1 ∨ length (dims lon) ≠ 1 →
  decimate_dataset ds ts = Raise AssertionError.
Proof.
  intros Hlat Hlon Hnd.
  rewrite (decimate_dataset_latlon_step _ _ _ _ Hlat Hlon).
  unfold decimate_latlon.
  rewrite (proj2 (getattr_Ok _ _ _) Hlat), (proj2 (getattr_Ok _ _ _) Hlon).
  cbn. destruct Hnd as [H | H].
  - by rewrite (bool_decide_eq_false_2 _ H).
  - rewrite (bool_decide_eq_false_2 _ H). by rewrite andb_false_r.
Qed.

Lemma decimate_dataset_assertion_witness :
  (curvilinear !! "lat" = Some (mkDataArray ["lat"; "lon"] [0; 1; 2]%Z)
   ∧ curvilinear !! "lon" = Some (axis "lon" 3)
   ∧ (length (dims (mkDataArray ["lat"; "lon"] [0; 1; 2]%Z)) ≠ 1
      ∨ length (dims (axis "lon" 3)) ≠ 1))
  ∧ decimate_dataset curvilinear (Some ("2000", "2025")) = Raise AssertionError.
Proof.
  assert (length (dims (mkDataArray ["lat"; "lon"] [0; 1; 2]%Z)) ≠ 1
          ∨ length (dims (axis "lon" 3)) ≠ 1) as Hnd by (left; cbn; lia).
  split; [by split_and! |].
  apply (decimate_dataset_assertion curvilinear (Some ("2000", "2025"))
           (mkDataArray ["lat"; "lon"] [0; 1; 2]%Z) (axis "lon" 3));
    [reflexivity | reflexivity | exact Hnd].
Defined.







(** X8. With a time span on a dataset that has a time dimension, a
    dataset that [decimate_dataset] returns is the one the clip returned
    for the cut dataset, and its time dimension is not empty.  This holds
    whatever the library's [interp] and [sel] return and whenever they
    raise. *)
Theorem decimate_dataset_with_time_nonempty
    (xr_interp : Dataset → list (string * DataArray) → outcome Dataset)
    (xr_sel : Dataset → string * string → outcome Dataset)
    (ds r : Dataset) span :
  in_dims "time" ds = true →
  decimate_dataset_with xr_interp xr_sel ds (Some span) = Ok (Some r) →
  ∃ g time,
    cut_grid xr_interp ds = Ok g ∧ xr_sel g span = Ok r
    ∧ r !! "time" = Some time ∧ len time ≠ 0.
Proof.
  intros Hin. unfold decimate_dataset_with.
  intros (g & Hg & H)%outcome_bind_Ok. rewrite Hin in H.
  apply outcome_bind_Ok in H as (c & Hc & H).
  apply outcome_bind_Ok in H as (time & Ht%getattr_Ok & H).
  destruct (bool_decide (len time = 0)) eqn:E; [done |].
  injection H as <-. apply bool_decide_eq_false in E.
  by exists g, time.
Qed.

Lemma decimate_dataset_with_time_nonempty_witness :
  ∃ r,
    (in_dims "time" atmos_2000 = true
     ∧ decimate_dataset_with (λ d targets, Ok (interp d targets)) sel_time
         atmos_2000 (Some ("2000", "2025"))
       = Ok (Some r))
    ∧ ∃ g time,
        cut_grid (λ d targets, Ok (interp d targets)) atmos_2000 = Ok g
        ∧ sel_time g ("2000", "2025") = Ok r
        ∧ r !! "time" = Some time ∧ len time ≠ 0.
Proof.
  eexists. split; [split; [reflexivity | vm_compute; reflexivity] |].
  apply (decimate_dataset_with_time_nonempty
           (λ d targets, Ok (interp d targets)) sel_time atmos_2000);
    [reflexivity | vm_compute; reflexivity].
Defined.






(** X10. On an index grid a second decimation cuts again, the window
    along [j] starting at the midpoint of what is there: when the source
    has three rows or more and two calls in a row, without a time span,
    both return a dataset, the second dataset has fewer rows than the
    first. *)
Theorem decimate_dataset_ij_shrinks (ds r r' : Dataset) j :
  in_dims "lat" ds && in_dims "lon" ds = false →
  ds !! "j" = Some j → 3 ≤ len j →
  decimate_dataset ds None = Ok (Some r) →
  decimate_dataset r None = Ok (Some r') →
  ∃ j1 j2, r !! "j" = Some j1 ∧ r' !! "j" = Some j2 ∧ len j2 < len j1.
Proof.
  intros Hll Hj Hn (g & Hclip & Hg)%decimate_dataset_inv
    (g' & Hclip' & Hg')%decimate_dataset_inv.
  destruct Hg as [[Hb _] | (_ & i & j0 & Hi & Hj0 & ->)]; [congruence |].
  rewrite Hj in Hj0. injection Hj0 as <-.
  assert (r = <["j" := slice (len j / 2) (len j / 2 + 10) j]>
                (<["i" := slice 0 10 i]> ds)) as ->.
  { unfold clip_time in Hclip.
    destruct (in_dims "time" ds); by injection Hclip as <-. }
  set (j1 := slice (len j / 2) (len j / 2 + 10) j) in *.
  set (r := <["j" := j1]> (<["i" := slice 0 10 i]> ds)) in *.
  assert (r !! "j" = Some j1) as Hrj by (subst r; by rewrite lookup_insert_eq).
  destruct Hg' as [[Hb _] | (_ & i' & j' & _ & Hj' & ->)].
  { unfold in_dims in *. subst r.
    rewrite !lookup_insert_ne in Hb by done. congruence. }
  rewrite Hrj in Hj'. injection Hj' as <-.
  assert (r' = <["j" := slice (len j1 / 2) (len j1 / 2 + 10) j1]>
                 (<["i" := slice 0 10 i']> r)) as ->.
  { unfold clip_time in Hclip'.
    destruct (in_dims "time" r); by injection Hclip' as <-. }
  exists j1, (slice (len j1 / 2) (len j1 / 2 + 10) j1).
  split_and!; [done | by rewrite lookup_insert_eq |].
  destruct (slice_from j (len j / 2)) as [_ Hl1].
  destruct (slice_from j1 (len j1 / 2)) as [_ Hl2].
  fold j1 in Hl1. rewrite Hl2, Hl1.
  pose proof (Nat.div_mod_eq (len j) 2).
  pose proof (Nat.mod_upper_bound (len j) 2).
  set (w := Nat.min 10 (len j - len j / 2)).
  assert (2 ≤ w) by (subst w; lia).
  pose proof (Nat.div_mod_eq w 2). pose proof (Nat.mod_upper_bound w 2).
  lia.
Qed.

Lemma decimate_dataset_ij_shrinks_witness :
  ∃ r r',
    (in_dims "lat" ocean_2000 && in_dims "lon" ocean_2000 = false
     ∧ ocean_2000 !! "j" = Some (axis "j" 30) ∧ 3 ≤ len (axis "j" 30)
     ∧ decimate_dataset ocean_2000 None = Ok (Some r)
     ∧ decimate_dataset r None = Ok (Some r'))
    ∧ ∃ j1 j2, r !! "j" = Some j1 ∧ r' !! "j" = Some j2 ∧ len j2 < len j1.
Proof.
  assert (3 ≤ len (axis "j" 30)) as Hn by (vm_compute; lia).
  eexists _, _.
  split;
    [split_and!;
       [reflexivity | reflexivity | exact Hn | vm_compute; reflexivity
       | vm_compute; reflexivity] |].
  eapply (decimate_dataset_ij_shrinks ocean_2000 _ _ (axis "j" 30));
    [reflexivity | reflexivity | exact Hn | vm_compute; reflexivity
    | vm_compute; reflexivity].
Defined.

(** ** More on create_out_filename *)

Lemma split_sep_plain s : has_sep s = false → split_sep s = [s].
Proof.
  induction s as [| c s IH]; [done |]. cbn.
  destruct (bool_decide (c = "/"%char)); [done |]. cbn.
  by intros ->%IH.
Qed.

Lemma names_of_plain s : plain s → names_of s = [s].
Proof.
  intros (Hne & Hdot & Hsep). unfold names_of.
  rewrite (split_sep_plain _ Hsep), filter_cons_True by done. done.
Qed.

Lemma startswith_sep_plain s : has_sep s = false → startswith_sep s = false.
Proof.
  destruct s as [| c s]; [done |]. cbn.
  by destruct (bool_decide (c = "/"%char)).
Qed.

Lemma root_of_relative s : startswith_sep s = false → root_of s = "".
Proof.
  destruct s as [| c s]; [done |]. cbn.
  intros Hc%bool_decide_eq_false.
  destruct c as [[] [] [] [] [] [] [] []]; try done.
Qed.

Lemma join_component_relative path b :
  path ≠ "" → startswith_sep path = false → startswith_sep b = false →
  join_component path b ≠ "" ∧ startswith_sep (join_component path b) = false.
Proof.
  intros Hne Hp Hb. unfold join_component. rewrite Hb.
  destruct path as [| c path]; [done |].
  by destruct (bool_decide _ || endswith_sep _).
Qed.

Lemma foldl_join_component_plain p path acc :
  path ≠ "" → startswith_sep path = false → names_of path = acc →
  Forall plain p →
  names_of (foldl join_component path p) = acc ++ p
  ∧ startswith_sep (foldl join_component path p) = false.
Proof.
  intros Hne Hrel Hacc Hp. revert path acc Hne Hrel Hacc.
  induction Hp as [| b p Hb _ IH]; intros path acc Hne Hrel Hacc.
  { by rewrite app_nil_r. }
  cbn [foldl].
  assert (startswith_sep b = false) as Hsb
    by (apply startswith_sep_plain, Hb).
  destruct (join_component_relative path b Hne Hrel Hsb) as [Hne' Hrel'].
  destruct (IH (join_component path b) (acc ++ [b])) as [Hn Hs]; [done.. | |].
  - by rewrite names_of_join_component, Hacc, (names_of_plain _ Hb).
  - by rewrite <- app_assoc in Hn.
Qed.

Lemma os_path_join_plain components :
  components ≠ [] → Forall plain components →
  ∃ directory,
    os_path_join components = Ok directory
    ∧ Path directory = mkPath "" components.
Proof.
  intros Hne Hp. destruct components as [| a p]; [done |].
  apply Forall_cons in Hp as [Ha Hp].
  destruct (foldl_join_component_plain p a [a]) as [Hn Hs]; try done.
  - apply Ha.
  - apply startswith_sep_plain, Ha.
  - by apply names_of_plain.
  - eexists. split; [reflexivity |]. unfold Path.
    by rewrite Hn, (root_of_relative _ Hs).
Qed.

Lemma has_sep_app a b : has_sep (a +:+ b) = has_sep a || has_sep b.
Proof.
  induction a as [| c a IH]; [done |].
  change (has_sep (String c (a +:+ b)) = has_sep (String c a) || has_sep b).
  cbn. rewrite IH. by destruct (bool_decide (c = "/"%char)).
Qed.

Lemma has_sep_str_join items :
  Forall (λ s, has_sep s = false) items → has_sep (str_join "_" items) = false.
Proof.
  induction 1 as [| x items Hx _ IH]; [done |].
  destruct items as [| y items]; [done |].
  change (has_sep (x +:+ "_" +:+ str_join "_" (y :: items)) = false).
  by rewrite !has_sep_app, Hx, IH.
Qed.

Lemma has_sep_digits d : has_sep (NilEmpty.string_of_uint d) = false.
Proof. induction d; cbn; by rewrite ?IHd. Qed.

Lemma has_sep_zfill width n : has_sep (zfill width n) = false.
Proof.
  unfold zfill. rewrite has_sep_app. apply orb_false_intro.
  - induction (width - _) as [| k IH]; [done |]. cbn in *.
    by destruct (replicate k "0").
  - unfold NilZero.string_of_uint.
    destruct (N.to_uint (Z.to_N n)); try apply has_sep_digits. done.
Qed.

Lemma has_sep_strftime t : has_sep (strftime_Ym t) = false.
Proof. unfold strftime_Ym. by rewrite has_sep_app, !has_sep_zfill. Qed.

Lemma string_length_app a b :
  String.length (a +:+ b) = String.length a + String.length b.
Proof.
  induction a as [| c a IH]; [done |].
  change (S (String.length (a +:+ b)) = S (String.length a + String.length b)).
  by rewrite IH.
Qed.

Lemma plain_long s : 2 ≤ String.length s → has_sep s = false → plain s.
Proof.
  intros Hlen Hsep. split_and!; [| | done]; intros ->; cbn in Hlen; lia.
Qed.

Lemma mapM_getitem_Ok metadata items vs :
  Forall2 (λ k v, attrs metadata !! k = Some v) items vs →
  mapM (getitem metadata) items = Ok vs.
Proof.
  induction 1 as [| k v items vs Hk _ IH]; [done |].
  cbn [mapM]. by rewrite (getitem_Ok _ _ _ Hk), IH.
Qed.

Lemma layout_schema metadata project :
  (if bool_decide (project = "obs4MIPs")
   then layout metadata obs4mips_path_items obs4mips_filename_paths
   else layout metadata cmip6_path_items cmip6_filename_paths)
  = layout metadata (schema_path_items project) (schema_filename_paths project).
Proof.
  unfold schema_path_items, schema_filename_paths.
  by destruct (bool_decide (project = "obs4MIPs")).
Qed.

Lemma schema_filename_in_path project k :
  k ∈ schema_filename_paths project → k ∈ schema_path_items project.
Proof.
  revert k. apply Forall_forall.
  unfold schema_filename_paths, schema_path_items.
  destruct (bool_decide (project = "obs4MIPs"));
    apply (bool_decide_unpack _); by vm_compute.
Qed.

Lemma schema_path_items_nonempty project : schema_path_items project ≠ [].
Proof.
  unfold schema_path_items. by destruct (bool_decide (project = "obs4MIPs")).
Qed.

(** The values of the filename columns are among those of the path
    columns. *)
Lemma prefix_items_plain metadata project components prefix_items :
  Forall2 (λ k v, attrs metadata !! k = Some v)
    (schema_path_items project) components →
  Forall2 (λ k v, attrs metadata !! k = Some v)
    (schema_filename_paths project) prefix_items →
  Forall plain components → Forall plain prefix_items.
Proof.
  intros Hc Hp Hplain. apply Forall_forall. intros v [i Hi]%list_elem_of_lookup.
  destruct (Forall2_lookup_r _ _ _ _ _ Hp Hi) as (k & Hk & Hv).
  assert (k ∈ schema_path_items project) as [j Hj]%list_elem_of_lookup.
  { apply schema_filename_in_path, list_elem_of_lookup. by exists i. }
  destruct (Forall2_lookup_l _ _ _ _ _ Hc Hj) as (v' & Hv' & Hkv').
  rewrite Hv in Hkv'. injection Hkv' as <-.
  eapply Forall_forall; [exact Hplain |]. apply list_elem_of_lookup. by exists j.
Qed.

(** X11. For a record whose path columns hold plain names (not empty, not
    a dot, no separator) and whose version has no separator,
    [create_out_filename] returns the relative path whose names are the
    values of the path columns of the schema, in the order of the schema,
    then the letter v and the version, then the file name: the values of
    the filename columns joined by underscores, then for a dataset with a
    time dimension an underscore and the months of its least and greatest
    time label, then the extension. *)
Theorem create_out_filename_plain metadata (ds : Dataset) project components
    version prefix_items filename :
  attrs metadata !! "project" = Some project →
  Forall2 (λ k v, attrs metadata !! k = Some v)
    (schema_path_items project) components →
  attrs metadata !! "version" = Some version →
  Forall2 (λ k v, attrs metadata !! k = Some v)
    (schema_filename_paths project) prefix_items →
  Forall plain components → has_sep version = false →
  (in_dims "time" ds = false ∧ filename = str_join "_" prefix_items +:+ ".nc")
  ∨ (∃ time first last,
       ds !! "time" = Some time
       ∧ first ∈ values time ∧ (∀ t, t ∈ values time → (first ≤ t)%Z)
       ∧ last ∈ values time ∧ (∀ t, t ∈ values time → (t ≤ last)%Z)
       ∧ filename
         = str_join "_" prefix_items +:+ "_"
           +:+ (strftime_Ym first +:+ "-" +:+ strftime_Ym last) +:+ ".nc") →
  create_out_filename metadata ds
  = Ok (mkPath "" (components ++ ["v" +:+ version; filename])).
Proof.
  intros Hproject Hc Hver Hp Hplain Hvsep Hname.
  destruct (os_path_join_plain components) as (directory & Hdir & Hpath);
    [| done |].
  { intros ->. apply Forall2_nil_inv_r in Hc.
    by apply schema_path_items_nonempty in Hc. }
  pose proof (prefix_items_plain _ _ _ _ Hc Hp Hplain) as Hpp.
  assert (has_sep (str_join "_" prefix_items) = false) as Hjoin.
  { apply has_sep_str_join. eapply Forall_impl; [exact Hpp |].
    by intros s (_ & _ & ?). }
  assert (plain filename) as Hfile.
  { destruct Hname as [[_ ->] | (time & first & last & _ & _ & _ & _ & _ & ->)].
    - apply plain_long;
        [rewrite string_length_app; cbn; lia | by rewrite has_sep_app, Hjoin].
    - apply plain_long;
        [rewrite !string_length_app; cbn; lia |].
      by rewrite !has_sep_app, Hjoin, !has_sep_strftime. }
  assert (plain ("v" +:+ version)) as Hv by (by split_and!).
  unfold create_out_filename, getfield. rewrite Hproject.
  cbn [mbind outcome_bind]. rewrite layout_schema.
  rewrite (layout_Ok _ _ _ _ _ _ _ (mapM_getitem_Ok _ _ _ Hc) Hdir Hver
             (mapM_getitem_Ok _ _ _ Hp)).
  cbn [mbind outcome_bind]. rewrite Hpath.
  assert (∀ path s, plain s →
            truediv path s = mkPath (root path) (names path ++ [s])) as Hdiv.
  { intros path s Hs. unfold truediv.
    rewrite startswith_sep_plain by apply Hs. by rewrite names_of_plain. }
  destruct Hname
    as [[Hno ->] | (time & first & last & Ht & Hf & Hfl & Hl & Hlg & ->)].
  - rewrite Hno. cbn [mbind outcome_bind].
    rewrite !Hdiv by done. cbn. by rewrite <- app_assoc.
  - rewrite (in_dims_Some _ _ _ Ht), (proj2 (getattr_Ok _ _ _) Ht).
    cbn [mbind outcome_bind].
    rewrite (array_min_Ok _ _ Hf Hfl), (array_max_Ok _ _ Hl Hlg).
    cbn [mbind outcome_bind].
    rewrite !Hdiv by done. cbn. by rewrite <- app_assoc.
Qed.

Lemma create_out_filename_plain_witness :
  (attrs tas_record !! "project" = Some "CMIP6"
   ∧ attrs tas_record !! "version" = Some "20191115"
   ∧ Forall plain
       [ "CMIP6"; "CMIP"; "CSIRO"; "ACCESS-ESM1-5"; "historical"; "r1i1p1f1";
         "Amon"; "tas"; "gn" ]
   ∧ has_sep "20191115" = false
   ∧ atmos_2000 !! "time" = Some months_2000)
  ∧ create_out_filename tas_record atmos_2000
    = Ok (mkPath ""
            ([ "CMIP6"; "CMIP"; "CSIRO"; "ACCESS-ESM1-5"; "historical";
               "r1i1p1f1"; "Amon"; "tas"; "gn" ]
             ++ [ "v" +:+ "20191115";
                  str_join "_"
                    [ "tas"; "Amon"; "ACCESS-ESM1-5"; "historical"; "r1i1p1f1";
                      "gn" ]
                  +:+ "_"
                  +:+ (strftime_Ym (month_label 2000 1) +:+ "-"
                       +:+ strftime_Ym (month_label 2000 12))
                  +:+ ".nc" ])).
Proof.
  assert (Forall plain
            [ "CMIP6"; "CMIP"; "CSIRO"; "ACCESS-ESM1-5"; "historical";
              "r1i1p1f1"; "Amon"; "tas"; "gn" ]) as Hplain
    by (repeat (constructor; [by split_and! |]); constructor).
  split; [by split_and! |].
  apply (create_out_filename_plain tas_record atmos_2000 "CMIP6"
           [ "CMIP6"; "CMIP"; "CSIRO"; "ACCESS-ESM1-5"; "historical";
             "r1i1p1f1"; "Amon"; "tas"; "gn" ]
           "20191115"
           [ "tas"; "Amon"; "ACCESS-ESM1-5"; "historical"; "r1i1p1f1"; "gn" ]).
  - reflexivity.
  - repeat (constructor; [reflexivity |]). constructor.
  - reflexivity.
  - repeat (constructor; [reflexivity |]). constructor.
  - exact Hplain.
  - reflexivity.
  - right. exists months_2000, (month_label 2000 1), (month_label 2000 12).
    split_and!; [reflexivity | | | | | reflexivity].
    + vm_compute. by left.
    + intros t Ht. apply (months_2000_span t Ht).
    + vm_compute. do 11 right. by left.
    + intros t Ht. apply (months_2000_span t Ht).
Defined.

Lemma mapM_getitem_present metadata items :
  Forall (λ k, is_Some (attrs metadata !! k)) items →
  ∃ vs, Forall2 (λ k v, attrs metadata !! k = Some v) items vs.
Proof.
  induction 1 as [| k items [v Hv] _ [vs IH]]; [by exists [] |].
  exists (v :: vs). by constructor.
Qed.

Lemma getitem_Raise metadata item :
  attrs metadata !! item = None → getitem metadata item = Raise (KeyError item).
Proof. intros E. unfold getitem. by rewrite E. Qed.

Lemma mapM_getitem_Raise metadata before item after :
  Forall (λ k, is_Some (attrs metadata !! k)) before →
  attrs metadata !! item = None →
  mapM (getitem metadata) (before ++ item :: after) = Raise (KeyError item).
Proof.
  intros Hb Hnone. induction Hb as [| k before [v Hv] _ IH].
  - cbn [app mapM]. by rewrite (getitem_Raise _ _ Hnone).
  - cbn [app mapM]. by rewrite (getitem_Ok _ _ _ Hv), IH.
Qed.

(** X12. When the project is there and a column of the schema is missing,
    [create_out_filename] fails with the key error of the first missing
    one, in the order in which it reads them: the path columns of the
    schema, then the version.  The dataset is not looked at. *)
Theorem create_out_filename_missing_field metadata (ds : Dataset) project
    before item after :
  attrs metadata !! "project" = Some project →
  schema_path_items project ++ ["version"] = before ++ item :: after →
  Forall (λ k, is_Some (attrs metadata !! k)) before →
  attrs metadata !! item = None →
  create_out_filename metadata ds = Raise (KeyError item).
Proof.
  intros Hproject Hsplit Hbefore Hnone.
  unfold create_out_filename, getfield. rewrite Hproject.
  cbn [mbind outcome_bind]. rewrite layout_schema.
  enough (layout metadata (schema_path_items project)
            (schema_filename_paths project) = Raise (KeyError item)) as ->
    by done.
  unfold layout. destruct after as [| x after _] using rev_ind.
  - apply app_inj_tail in Hsplit as [Hs <-]. rewrite <- Hs in Hbefore.
    destruct (mapM_getitem_present _ _ Hbefore) as [vs Hvs].
    rewrite (mapM_getitem_Ok _ _ _ Hvs). cbn [mbind outcome_bind].
    destruct vs as [| v vs];
      [apply Forall2_nil_inv_r in Hvs;
       by apply schema_path_items_nonempty in Hvs |].
    cbn. by rewrite (getitem_Raise _ _ Hnone).
  - rewrite app_comm_cons, app_assoc in Hsplit.
    apply app_inj_tail in Hsplit as [-> _].
    by rewrite (mapM_getitem_Raise _ _ _ _ Hbefore Hnone).
Qed.

Lemma create_out_filename_missing_field_witness :
  (attrs airs_incomplete !! "project" = Some "obs4MIPs"
   ∧ schema_path_items "obs4MIPs" ++ ["version"]
     = [] ++ "activity_id" :: ["institution_id"; "source_id"; "variable_id";
                               "grid_label"; "version"]
   ∧ attrs airs_incomplete !! "activity_id" = None)
  ∧ create_out_filename airs_incomplete grid_without_time
    = Raise (KeyError "activity_id").
Proof.
  split; [by split_and! |].
  apply (create_out_filename_missing_field airs_incomplete grid_without_time
           "obs4MIPs" [] "activity_id"
           ["institution_id"; "source_id"; "variable_id"; "grid_label";
            "version"]);
    [reflexivity | reflexivity | constructor | reflexivity].
Defined.

Lemma schema_filename_present metadata project :
  Forall (λ k, is_Some (attrs metadata !! k)) (schema_path_items project) →
  Forall (λ k, is_Some (attrs metadata !! k)) (schema_filename_paths project).
Proof.
  rewrite !Forall_forall. intros Hp k Hk. by apply Hp, schema_filename_in_path.
Qed.

Lemma layout_present metadata project :
  Forall (λ k, is_Some (attrs metadata !! k))
    (schema_path_items project ++ ["version"]) →
  ∃ output_path filename_prefix,
    layout metadata (schema_path_items project) (schema_filename_paths project)
    = Ok (output_path, filename_prefix).
Proof.
  intros [Hitems [[version Hver] _]%Forall_cons]%Forall_app.
  destruct (mapM_getitem_present _ _ Hitems) as [components Hc].
  destruct (mapM_getitem_present _ _ (schema_filename_present _ _ Hitems))
    as [prefix_items Hp].
  destruct components as [| a p];
    [apply Forall2_nil_inv_r in Hc; by apply schema_path_items_nonempty in Hc |].
  eexists _, _.
  by apply (layout_Ok _ _ _ _ _ _ _ (mapM_getitem_Ok _ _ _ Hc) eq_refl Hver
              (mapM_getitem_Ok _ _ _ Hp)).
Qed.






(** The failure that the sentinel keeps away: a dataset whose time
    dimension is empty cannot be named. *)
Lemma create_out_filename_empty_time metadata (ds : Dataset) project time :
  attrs metadata !! "project" = Some project →
  Forall (λ k, is_Some (attrs metadata !! k))
    (schema_path_items project ++ ["version"]) →
  ds !! "time" = Some time → values time = [] →
  ∃ msg, create_out_filename metadata ds = Raise (ValueError msg).
Proof.
  intros Hproject Hpresent Ht Hnil.
  destruct (layout_present _ _ Hpresent) as (output_path & prefix & Hlayout).
  unfold create_out_filename, getfield. rewrite Hproject.
  cbn [mbind outcome_bind]. rewrite layout_schema, Hlayout.
  cbn [mbind outcome_bind].
  rewrite (in_dims_Some _ _ _ Ht), (proj2 (getattr_Ok _ _ _) Ht).
  cbn [mbind outcome_bind]. unfold array_min. rewrite Hnil. by eexists.
Qed.

Lemma getitem_ext metadata metadata' k :
  attrs metadata' !! k = attrs metadata !! k →
  getitem metadata' k = getitem metadata k.
Proof. intros E. unfold getitem. by rewrite E. Qed.

Lemma mapM_getitem_ext metadata metadata' items :
  (∀ k, k ∈ items → attrs metadata' !! k = attrs metadata !! k) →
  mapM (getitem metadata') items = mapM (getitem metadata) items.
Proof.
  induction items as [| k items IH]; intros Hext; [done |].
  cbn [mapM]. rewrite (getitem_ext metadata metadata' k) by (apply Hext; by left).
  by rewrite IH by (intros k' ?; apply Hext; by right).
Qed.

(** X14. [create_out_filename] reads the project, the version and the path
    columns of the schema of the project, and nothing else of the record:
    two records that agree on these get the same path, whatever their
    keys, files, time spans and other columns.  So a record of the
    obs4MIPs schema needs none of the columns that only the CMIP schema
    names. *)
Theorem create_out_filename_reads_schema metadata metadata' (ds : Dataset)
    project :
  attrs metadata !! "project" = Some project →
  (∀ k, k ∈ "project" :: "version" :: schema_path_items project →
        attrs metadata' !! k = attrs metadata !! k) →
  create_out_filename metadata' ds = create_out_filename metadata ds.
Proof.
  intros Hproject Hext.
  assert (attrs metadata' !! "project" = Some project) as Hproject'
    by (rewrite Hext; [done | by left]).
  unfold create_out_filename, getfield. rewrite Hproject, Hproject'.
  cbn [mbind outcome_bind]. rewrite !layout_schema.
  enough (layout metadata' (schema_path_items project)
            (schema_filename_paths project)
          = layout metadata (schema_path_items project)
              (schema_filename_paths project)) as -> by done.
  unfold layout.
  rewrite (getitem_ext metadata metadata' "version")
    by (apply Hext; right; by left).
  rewrite (mapM_getitem_ext metadata metadata' (schema_path_items project))
    by (intros k ?; apply Hext; by do 2 right).
  by rewrite (mapM_getitem_ext metadata metadata' (schema_filename_paths project))
    by (intros k ?%schema_filename_in_path; apply Hext; by do 2 right).
Qed.

Lemma create_out_filename_reads_schema_witness :
  (attrs airs_record !! "project" = Some "obs4MIPs"
   ∧ ∀ k, k ∈ "project" :: "version" :: schema_path_items "obs4MIPs" →
          attrs (mkSeries "" (<["table_id" := "Amon"]> (attrs airs_record))
                   [] "1990" "1991") !! k
          = attrs airs_record !! k)
  ∧ create_out_filename
      (mkSeries "" (<["table_id" := "Amon"]> (attrs airs_record)) [] "1990" "1991")
      grid_without_time
    = create_out_filename airs_record grid_without_time.
Proof.
  assert (∀ k, k ∈ "project" :: "version" :: schema_path_items "obs4MIPs" →
            attrs (mkSeries "" (<["table_id" := "Amon"]> (attrs airs_record))
                     [] "1990" "1991") !! k
            = attrs airs_record !! k) as Hext.
  { apply Forall_forall. repeat (constructor; [reflexivity |]). constructor. }
  split; [by split |].
  apply (create_out_filename_reads_schema airs_record _ grid_without_time
           "obs4MIPs"); [reflexivity | exact Hext].
Defined.

(** ** The loop of the script *)

Lemma decimate_dataset_small_grid (ds r : Dataset) ts :
  decimate_dataset ds ts = Ok (Some r) → small_grid r.
Proof.
  intros (g & Hclip & Hg)%decimate_dataset_inv.
  pose proof (clip_time_Some _ _ _ _ Hclip) as Hsame.
  destruct Hg as [(_ & lat & lon & _ & _ & _ & _ & ->)
                 | (_ & i & j & _ & _ & ->)].
  - left. exists (slice 0 10 lat), (slice 0 10 lon).
    rewrite !Hsame by done.
    split_and!; [by rewrite lookup_insert_ne, lookup_insert_eq
                | by rewrite lookup_insert_eq | apply slice_first..].
  - right. exists (slice 0 10 i), (slice (len j / 2) (len j / 2 + 10) j).
    rewrite !Hsame by done.
    split_and!; [by rewrite lookup_insert_ne, lookup_insert_eq
                | by rewrite lookup_insert_eq | apply slice_first |].
    destruct (slice_from j (len j / 2)) as [_ ->]. lia.
Qed.

(** The path of a record of plain names, whatever the dataset. *)
Lemma create_out_filename_plain_record metadata (ds : Dataset) project
    components version output_filename :
  attrs metadata !! "project" = Some project →
  Forall2 (λ k v, attrs metadata !! k = Some v)
    (schema_path_items project) components →
  attrs metadata !! "version" = Some version →
  Forall plain components → has_sep version = false →
  create_out_filename metadata ds = Ok output_filename →
  ∃ filename,
    plain filename ∧ 3 ≤ String.length filename
    ∧ output_filename = mkPath "" (components ++ ["v" +:+ version; filename]).
Proof.
  intros Hproject Hc Hver Hplain Hvsep.
  destruct (os_path_join_plain components) as (directory & Hdir & Hpath);
    [| done |].
  { intros ->. apply Forall2_nil_inv_r in Hc.
    by apply schema_path_items_nonempty in Hc. }
  assert (Forall (λ k, is_Some (attrs metadata !! k)) (schema_path_items project))
    as Hpresent.
  { apply Forall_forall. intros k [i Hi]%list_elem_of_lookup.
    destruct (Forall2_lookup_l _ _ _ _ _ Hc Hi) as (v & _ & Hv). by exists v. }
  destruct (mapM_getitem_present _ _ (schema_filename_present _ _ Hpresent))
    as [prefix_items Hp].
  pose proof (prefix_items_plain _ _ _ _ Hc Hp Hplain) as Hpp.
  assert (has_sep (str_join "_" prefix_items) = false) as Hjoin.
  { apply has_sep_str_join. eapply Forall_impl; [exact Hpp |].
    by intros s (_ & _ & ?). }
  assert (plain ("v" +:+ version)) as Hv by (by split_and!).
  assert (∀ path s, plain s →
            truediv path s = mkPath (root path) (names path ++ [s])) as Hdiv.
  { intros path s Hs. unfold truediv.
    rewrite startswith_sep_plain by apply Hs. by rewrite names_of_plain. }
  unfold create_out_filename, getfield. rewrite Hproject.
  cbn [mbind outcome_bind]. rewrite layout_schema.
  rewrite (layout_Ok _ _ _ _ _ _ _ (mapM_getitem_Ok _ _ _ Hc) Hdir Hver
             (mapM_getitem_Ok _ _ _ Hp)).
  cbn [mbind outcome_bind]. rewrite Hpath.
  intros (filename & Hname & [= <-])%outcome_bind_Ok.
  assert (3 ≤ String.length filename ∧ has_sep filename = false)
    as [Hlen Hsep].
  { destruct (in_dims "time" ds).
    - apply outcome_bind_Ok in Hname as (time & _ & Hname).
      apply outcome_bind_Ok in Hname as (first & _ & Hname).
      apply outcome_bind_Ok in Hname as (last & _ & [= <-]).
      split; [rewrite !string_length_app; cbn; lia |].
      by rewrite !has_sep_app, Hjoin, !has_sep_strftime.
    - injection Hname as <-.
      split; [rewrite string_length_app; cbn; lia |].
      by rewrite has_sep_app, Hjoin. }
  assert (plain filename) as Hfile by (apply plain_long; [lia | done]).
  exists filename. split_and!; [done.. |].
  rewrite !Hdiv by done. cbn. by rewrite <- app_assoc.
Qed.

Section driver_facts.
Variable open_dataset : string → outcome Dataset.

(** What stands behind a write. *)
Lemma process_file_Some dataset ds_filename path ds_decimated :
  process_file open_dataset dataset ds_filename = Ok (Some (path, ds_decimated)) →
  ∃ variable_id ds_orig output_filename,
    attrs dataset !! "variable_id" = Some variable_id
    ∧ before_underscore (path_name ds_filename) = variable_id
    ∧ open_dataset ds_filename = Ok ds_orig
    ∧ decimate_dataset ds_orig (Some (time_start dataset, time_end dataset))
      = Ok (Some ds_decimated)
    ∧ create_out_filename dataset ds_decimated = Ok output_filename
    ∧ path = truediv_path OUTPUT_PATH output_filename.
Proof.
  unfold process_file. intros (v & Hv & H)%outcome_bind_Ok.
  unfold getfield in Hv.
  destruct (attrs dataset !! "variable_id") as [v' |] eqn:E; [| done].
  injection Hv as ->.
  destruct (decide (before_underscore (path_name ds_filename) = v)) as [Hm | Hm].
  - rewrite bool_decide_eq_false_2 in H by (by intros ?).
    apply outcome_bind_Ok in H as (ds_orig & Hopen & H).
    apply outcome_bind_Ok in H as ([d |] & Hdec & H); [| done].
    apply outcome_bind_Ok in H as (q & Hq & [= <- <-]).
    by exists v, ds_orig, q.
  - by rewrite bool_decide_eq_true_2 in H.
Qed.

Lemma write_files_origin dataset filenames written written' stopped :
  write_files open_dataset dataset filenames written = (written', stopped) →
  ∃ new,
    written' = written ++ new
    ∧ Forall (λ w, ∃ ds_filename,
                ds_filename ∈ filenames
                ∧ process_file open_dataset dataset ds_filename = Ok (Some w))
        new.
Proof.
  revert written. induction filenames as [| f rest IH]; intros written; cbn.
  { intros [= <- _]. exists []. by rewrite app_nil_r. }
  destruct (process_file open_dataset dataset f) as [[w |] | e] eqn:E.
  - intros (new & -> & Hnew)%IH. exists (w :: new).
    split; [by rewrite <- app_assoc |]. constructor.
    + exists f. split; [by left | done].
    + eapply Forall_impl; [exact Hnew |].
      intros x (f' & ? & ?). exists f'. split; [by right | done].
  - intros (new & -> & Hnew)%IH. exists new. split; [done |].
    eapply Forall_impl; [exact Hnew |].
    intros x (f' & ? & ?). exists f'. split; [by right | done].
  - intros [= <- _]. exists []. by rewrite app_nil_r.
Qed.

Lemma main_loop_origin datasets written written' stopped :
  main_loop open_dataset datasets written = (written', stopped) →
  ∃ new,
    written' = written ++ new
    ∧ Forall (λ w, ∃ dataset ds_filename,
                dataset ∈ datasets ∧ ds_filename ∈ files dataset
                ∧ process_file open_dataset dataset ds_filename = Ok (Some w))
        new.
Proof.
  revert written. induction datasets as [| d rest IH]; intros written; cbn.
  { intros [= <- _]. exists []. by rewrite app_nil_r. }
  destruct (write_files open_dataset d (files d) written) as [w1 [e |]] eqn:E;
    apply write_files_origin in E as (new1 & -> & Hnew1).
  - intros [= <- _]. exists new1. split; [done |].
    eapply Forall_impl; [exact Hnew1 |].
    intros x (f & ? & ?). exists d, f. split_and!; [by left | done..].
  - intros (new2 & -> & Hnew2)%IH. exists (new1 ++ new2).
    split; [by rewrite <- app_assoc |]. apply Forall_app. split.
    + eapply Forall_impl; [exact Hnew1 |].
      intros x (f & ? & ?). exists d, f. split_and!; [by left | done..].
    + eapply Forall_impl; [exact Hnew2 |].
      intros x (d' & f & ? & ? & ?). exists d', f. split_and!; [by right | done..].
Qed.

(** X15. Whatever the loop writes comes from a file of a record of the
    table whose name, up to its first underscore, is the variable of the
    record: the dataset written is what [decimate_dataset] returned for
    that file and the time span of the record, and the path is what
    [create_out_filename] returned for the record and that dataset, under
    the output directory.  This holds for the writes of a run that an
    exception ended as well. *)
Theorem main_loop_writes datasets written stopped path ds_decimated :
  main_loop open_dataset datasets [] = (written, stopped) →
  (path, ds_decimated) ∈ written →
  ∃ dataset ds_filename ds_orig output_filename,
    dataset ∈ datasets ∧ ds_filename ∈ files dataset
    ∧ attrs dataset !! "variable_id"
      = Some (before_underscore (path_name ds_filename))
    ∧ open_dataset ds_filename = Ok ds_orig
    ∧ decimate_dataset ds_orig (Some (time_start dataset, time_end dataset))
      = Ok (Some ds_decimated)
    ∧ create_out_filename dataset ds_decimated = Ok output_filename
    ∧ path = truediv_path OUTPUT_PATH output_filename.
Proof.
  intros (new & -> & Hnew)%main_loop_origin Hin. cbn in Hin.
  rewrite Forall_forall in Hnew.
  destruct (Hnew _ Hin) as (dataset & f & Hd & Hf & Hp).
  apply process_file_Some in Hp as (v & ds & q & Hv & <- & Ho & Hdec & Hq & ->).
  by exists dataset, f, ds, q.
Qed.

End driver_facts.

Lemma main_loop_writes_witness :
  ∃ written path ds_decimated,
    (main_loop sample_files [tas_record] [] = (written, None)
     ∧ (path, ds_decimated) ∈ written)
    ∧ ∃ dataset ds_filename ds_orig output_filename,
        dataset ∈ [tas_record] ∧ ds_filename ∈ files dataset
        ∧ attrs dataset !! "variable_id"
          = Some (before_underscore (path_name ds_filename))
        ∧ sample_files ds_filename = Ok ds_orig
        ∧ decimate_dataset ds_orig (Some (time_start dataset, time_end dataset))
          = Ok (Some ds_decimated)
        ∧ create_out_filename dataset ds_decimated = Ok output_filename
        ∧ path = truediv_path OUTPUT_PATH output_filename.
Proof.
  eexists _, _, _. split; [split; [vm_compute; reflexivity | by left] |].
  eapply (main_loop_writes sample_files [tas_record]);
    [vm_compute; reflexivity | by left].
Defined.

Section driver_guarantees.
Variable open_dataset : string → outcome Dataset.

(** X16. Every dataset the loop writes is small: it has at most 10 points
    along [lat] and along [lon], or at most 10 along [i] and along [j]. *)
Theorem main_loop_writes_small datasets written stopped path ds_decimated :
  main_loop open_dataset datasets [] = (written, stopped) →
  (path, ds_decimated) ∈ written →
  small_grid ds_decimated.
Proof.
  intros (new & -> & Hnew)%main_loop_origin Hin. cbn in Hin.
  rewrite Forall_forall in Hnew.
  destruct (Hnew _ Hin) as (dataset & f & _ & _ & Hp).
  apply process_file_Some in Hp as (v & ds & q & _ & _ & _ & Hdec & _).
  by eapply decimate_dataset_small_grid.
Qed.

(** X17. For a table of records of downward names, every path the loop
    writes to leads downwards from the output directory: it is relative,
    its first name is [data], and every name after it is one downward
    name, with no separator in it and neither the dot nor the double
    dot.  The names are the values of the path columns of a record of the
    table, the version directory and the file name. *)
Theorem main_loop_writes_under_data datasets written stopped path ds_decimated :
  Forall downward_record datasets →
  main_loop open_dataset datasets [] = (written, stopped) →
  (path, ds_decimated) ∈ written →
  ∃ dataset project components version filename,
    dataset ∈ datasets
    ∧ attrs dataset !! "project" = Some project
    ∧ Forall2 (λ k v, attrs dataset !! k = Some v)
        (schema_path_items project) components
    ∧ attrs dataset !! "version" = Some version
    ∧ path
      = mkPath "" ("data" :: components ++ ["v" +:+ version; filename])
    ∧ Forall downward (components ++ ["v" +:+ version; filename]).
Proof.
  intros Hdown (new & -> & Hnew)%main_loop_origin Hin. cbn in Hin.
  rewrite Forall_forall in Hnew. rewrite Forall_forall in Hdown.
  destruct (Hnew _ Hin) as (dataset & f & Hd & _ & Hp).
  apply process_file_Some in Hp as (v & ds & q & _ & _ & _ & _ & Hq & ->).
  destruct (Hdown _ Hd)
    as (project & components & version & Hproject & Hc & Hver & Hdn & Hvs).
  assert (Forall plain components) as Hpl
    by (eapply Forall_impl; [exact Hdn |]; by intros s [? _]).
  destruct (create_out_filename_plain_record _ _ _ _ _ _
              Hproject Hc Hver Hpl Hvs Hq) as (filename & Hfile & Hlen & ->).
  exists dataset, project, components, version, filename.
  split_and!; [done.. |].
  apply Forall_app. split; [done |].
  apply Forall_cons. split; [split; [by split_and! | done] |].
  apply Forall_singleton. split; [done |].
  intros ->. cbn in Hlen. lia.
Qed.

End driver_guarantees.

(** X18. A file whose name, up to its first underscore, is not the
    variable of its record is not opened: two file systems that agree on
    the other files give the same run. *)
Theorem main_loop_skips_other_variables
    (open_dataset open_dataset' : string → outcome Dataset) datasets written :
  (∀ dataset ds_filename,
     dataset ∈ datasets → ds_filename ∈ files dataset →
     attrs dataset !! "variable_id"
     = Some (before_underscore (path_name ds_filename)) →
     open_dataset' ds_filename = open_dataset ds_filename) →
  main_loop open_dataset' datasets written
  = main_loop open_dataset datasets written.
Proof.
  assert (∀ dataset ds_filename,
            (attrs dataset !! "variable_id"
             = Some (before_underscore (path_name ds_filename)) →
             open_dataset' ds_filename = open_dataset ds_filename) →
            process_file open_dataset' dataset ds_filename
            = process_file open_dataset dataset ds_filename) as Hfile.
  { intros dataset f Hagree. unfold process_file, getfield.
    destruct (attrs dataset !! "variable_id") as [v |]; [| done].
    cbn [mbind outcome_bind]. case_bool_decide as Hm; [done |].
    rewrite Hagree; [done |]. f_equal.
    destruct (decide (before_underscore (path_name f) = v)); [done |].
    by destruct Hm. }
  assert (∀ dataset filenames w,
            (∀ ds_filename, ds_filename ∈ filenames →
               attrs dataset !! "variable_id"
               = Some (before_underscore (path_name ds_filename)) →
               open_dataset' ds_filename = open_dataset ds_filename) →
            write_files open_dataset' dataset filenames w
            = write_files open_dataset dataset filenames w) as Hfiles.
  { intros dataset filenames. induction filenames as [| f rest IH];
      intros w Hagree; [done |]. cbn.
    rewrite Hfile by (apply Hagree; by left).
    destruct (process_file open_dataset dataset f) as [[x |] | e]; [| | done];
      apply IH; intros f' ?; apply Hagree; by right. }
  revert written. induction datasets as [| d rest IH]; intros written Hagree;
    [done |]. cbn.
  rewrite Hfiles by (intros f ?; apply Hagree; [by left | done]).
  destruct (write_files open_dataset d (files d) written) as [w1 [e |]];
    [done |].
  apply IH. intros d' f ?. apply Hagree. by right.
Qed.

Lemma main_loop_writes_small_witness :
  ∃ written path ds_decimated,
    (main_loop sample_files [tas_record] [] = (written, None)
     ∧ (path, ds_decimated) ∈ written)
    ∧ small_grid ds_decimated.
Proof.
  eexists _, _, _. split; [split; [vm_compute; reflexivity | by left] |].
  eapply (main_loop_writes_small sample_files [tas_record]);
    [vm_compute; reflexivity | by left].
Defined.

Lemma tas_record_downward : downward_record tas_record.
Proof.
  exists "CMIP6",
    [ "CMIP6"; "CMIP"; "CSIRO"; "ACCESS-ESM1-5"; "historical"; "r1i1p1f1";
      "Amon"; "tas"; "gn" ], "20191115".
  split_and!; [reflexivity | | reflexivity | | reflexivity].
  - repeat (constructor; [reflexivity |]). constructor.
  - repeat (constructor; [by split_and! |]). constructor.
Qed.

Lemma main_loop_writes_under_data_witness :
  ∃ written path ds_decimated,
    (Forall downward_record [tas_record]
     ∧ main_loop sample_files [tas_record] [] = (written, None)
     ∧ (path, ds_decimated) ∈ written)
    ∧ ∃ dataset project components version filename,
        dataset ∈ [tas_record]
        ∧ attrs dataset !! "project" = Some project
        ∧ Forall2 (λ k v, attrs dataset !! k = Some v)
            (schema_path_items project) components
        ∧ attrs dataset !! "version" = Some version
        ∧ path
          = mkPath "" ("data" :: components ++ ["v" +:+ version; filename])
        ∧ Forall downward (components ++ ["v" +:+ version; filename]).
Proof.
  assert (Forall downward_record [tas_record]) as Hdown
    by (constructor; [exact tas_record_downward | constructor]).
  eexists _, _, _.
  split; [split_and!; [exact Hdown | vm_compute; reflexivity | by left] |].
  eapply (main_loop_writes_under_data sample_files [tas_record]);
    [exact Hdown | vm_compute; reflexivity | by left].
Defined.

Lemma sample_files_agree dataset ds_filename :
  dataset ∈ [mixed_record] → ds_filename ∈ files dataset →
  attrs dataset !! "variable_id"
  = Some (before_underscore (path_name ds_filename)) →
  other_files ds_filename = sample_files ds_filename.
Proof.
  intros ->%list_elem_of_singleton
    [-> | ->%list_elem_of_singleton]%elem_of_cons Hv.
  - by vm_compute in Hv.
  - reflexivity.
Qed.

Lemma main_loop_skips_other_variables_witness :
  main_loop other_files [mixed_record] []
  = main_loop sample_files [mixed_record] [].
Proof.
  apply (main_loop_skips_other_variables sample_files other_files
           [mixed_record] []).
  exact sample_files_agree.
Defined.
